(** * The cognitive cycle of [metagpt/roles/assistant.py]

    A shallow embedding of the [Assistant] role: memory refinement
    ([refine_memory]), classification ([think]), routing ([_plan],
    [talk_handler], [skill_handler]), execution ([act]) and the memory
    snapshot loader ([load_memory]).

    The role is effectful Python: it mutates [self.memory] and
    [self._rc.todo], awaits a language model, writes to a logger and can be
    left by an exception.  Those effects are made explicit by a small state
    and exception monad over a [World] record.  A raised exception keeps
    every mutation made before it, as in Python. *)

From Stdlib Require Import String Ascii List ZArith.
From stdpp Require Import base option strings gmap.
Import ListNotations.

Local Open Scope Z_scope.

(** ** Text helpers *)

Definition nl : string := String "010"%char EmptyString.

(** Python's truth value of a [str]: only the empty text is false. *)
Definition truthy (s : string) : bool :=
  match s with
  | EmptyString => false
  | String _ _ => true
  end.

(** [after_prefix p s] is the rest of [s] behind its prefix [p]. *)
Fixpoint after_prefix (p s : string) : option string :=
  match p, s with
  | EmptyString, _ => Some s
  | String a p', String b s' =>
      if Ascii.eqb a b then after_prefix p' s' else None
  | String _ _, EmptyString => None
  end.

Fixpoint lstrip (s : string) : string :=
  match s with
  | EmptyString => EmptyString
  | String a s' => if Ascii.is_space a then lstrip s' else s
  end.

(** Trimming: white space is removed at both ends. *)
Definition strip (s : string) : string :=
  String.rev (lstrip (String.rev (lstrip s))).

(** Every character of [s] is white space. *)
Definition all_space (s : string) : Prop :=
  forall pre post a, s = pre +:+ String a post -> Ascii.is_space a = true.

(** [occurs m s]: the text [m] is found somewhere in [s]. *)
Definition occurs (m s : string) : Prop :=
  exists pre post : string, s = pre +:+ m +:+ post.

(** The same as a test. *)
Fixpoint occursb (m s : string) : bool :=
  match after_prefix m s with
  | Some _ => true
  | None =>
      match s with
      | EmptyString => false
      | String _ s' => occursb m s'
      end
  end.

(** ** Message types *)

Module MessageType.

(** Modelled from the spec: the enumeration [MessageType] is declared in
    [metagpt/memory/brain_memory.py], which is not under src/.  Section 3
    of the spec gives its four members. *)
Inductive t := Talk | Problem | Solution | Skill.

(** Modelled from the spec: [MessageType.X.value], the key under which the
    router files a handler.  The value of a member is the word of its
    marker (section 4.3). *)
Definition value (m : t) : string :=
  match m with
  | Talk => "TALK"
  | Problem => "PROBLEM"
  | Solution => "SOLUTION"
  | Skill => "SKILL"
  end.

End MessageType.

(** ** The response parser *)

(** Modelled from the spec: the four markers of section 4.3, in the order
    the spec lists them. *)
Definition markers : list (MessageType.t * string) :=
  [ (MessageType.Skill, "[SKILL]:"); (MessageType.Solution, "[SOLUTION]:");
    (MessageType.Problem, "[PROBLEM]:"); (MessageType.Talk, "[TALK]:") ].

(** The first marker of [ms] that [s] starts with, and what follows it. *)
Fixpoint marker_at (ms : list (MessageType.t * string)) (s : string)
  : option (MessageType.t * string) :=
  match ms with
  | [] => None
  | (t, m) :: ms' =>
      match after_prefix m s with
      | Some rest => Some (t, rest)
      | None => marker_at ms' s
      end
  end.

(** Scan for the first place of [s] where a marker stands. *)
Fixpoint scan (s : string) : option (MessageType.t * string) :=
  match marker_at markers s with
  | Some r => Some r
  | None =>
      match s with
      | EmptyString => None
      | String _ s' => scan s'
      end
  end.

(** Modelled from the spec: [OpenAIGPTAPI.extract_info] lives in
    [metagpt/provider/openai_api.py], which is not under src/;
    [Assistant.extract_info] only forwards to it.  Section 4.3: scan for
    the first recognized marker; the tag is the marker's type and the
    payload the trimmed remainder of the text after the marker; without a
    marker the tag is Talk and the payload the whole trimmed input.  The
    example of section 8 reads the payload of a marker only up to the next
    boundary, which the rule of section 4.3 does not say; the model keeps
    to the rule, so the two differ on text that goes on after the first
    word of the payload.  The properties below hold for whatever payload
    a marker is given. *)
Definition extract_info (input_string : string) : string * string :=
  match scan input_string with
  | Some (t, rest) => (MessageType.value t, strip rest)
  | None => (MessageType.value MessageType.Talk, strip input_string)
  end.

(** ** Messages, skills and actions *)

Inductive ActionClass := TalkActionClass | SkillActionClass.

(** [Message(content, instruct_content, cause_by, tags)] with the keyword
    arguments the role passes; an argument left out is [None] (no tags). *)
Record Message := {
  content : string;
  instruct_content : option (list (string * string));
  cause_by : option ActionClass;
  tags : gset string;
}.

Record ActionOutput := {
  output_content : string;
  output_instruct_content : option (list (string * string));
}.

(** A capability of the catalog: the role reads [name] and [description];
    the argument schema is opaque to it. *)
Record Skill := {
  name : string;
  description : string;
  arguments : list (string * string);
}.

Definition Args := list (string * string).

(** The pending action kept in [self._rc.todo].  [options] and [llm] are
    the same for every action the role builds and are left out. *)
Inductive Action :=
| TalkAction (talk : string) (knowledge : string) (last_talk : string)
| SkillAction (skill : Skill) (args : Args) (name desc : string).

Definition type (a : Action) : ActionClass :=
  match a with
  | TalkAction _ _ _ => TalkActionClass
  | SkillAction _ _ _ _ => SkillActionClass
  end.

(** What [todo.run] hands back when it returns something: a [str] or an
    object with [content] and [instruct_content]. *)
Inductive RunResult :=
| RStr (s : string)
| ROutput (o : ActionOutput).

(** Python's [not result] for what [run] returned: it holds of [None] and
    of the empty text, and of no [ActionOutput] object. *)
Definition not_result (r : option RunResult) : bool :=
  match r with
  | None => true
  | Some (RStr s) => negb (truthy s)
  | Some (ROutput _) => false
  end.

(** ** The oracle *)

Inductive OracleCall :=
| aask_call (prompt : string) (system_msgs : list string)
| get_context_title_call (text : string) (max_words : Z)
| is_related_call (text1 text2 : string)
| rewrite_call (sentence context : string).

(** The language model behind [self._llm].  Each request is answered or
    fails ([None]); a failed request raises in the caller.  One cycle sends
    each kind of request at most once, so an answer is a function of the
    request. *)
Record LLM := {
  aask : string -> list string -> option string;
  get_context_title : string -> Z -> option string;
  is_related : string -> string -> option bool;
  rewrite : string -> string -> option string;
}.

(** The catalog [self.skills]: [get_skill_list] is the dict from
    description to name, in insertion order; [get_skill] is [None] for an
    unknown name. *)
Record SkillLoader := {
  get_skill_list : list (string * string);
  get_skill : string -> option Skill;
}.

(** ** Exceptions and results *)

Inductive Exn :=
| OracleError (c : OracleCall)
| AttributeError (attr : string)
| TypeError (msg : string)
| ValidationError (msg : string)
| ActionError (msg : string).

Inductive result (A : Type) :=
| Ok (a : A)
| Raise (e : Exn).
Arguments Ok {A} a.
Arguments Raise {A} e.

(** ** Conversation memory *)

(** Modelled from the spec: the class [BrainMemory] is declared in
    [metagpt/memory/brain_memory.py], which is not under src/.  The
    interface is the one of section 4.1 under the names the role calls:
    [last_talk], [history_text], [get_knowledge] (the knowledge excerpt),
    [add_talk], [add_answer], [move_to_solution] (the checkpoint) and the
    constructor applied to the fields of a snapshot, which raises on a
    malformed one.  The laws are invariant (c) of section 3 and the
    idempotence of the checkpoint. *)
Class BrainMemoryOps (BrainMemory Snapshot : Type) := {
  last_talk : BrainMemory -> option string;
  history_text : BrainMemory -> string;
  get_knowledge : BrainMemory -> string;
  add_talk : Message -> BrainMemory -> BrainMemory;
  add_answer : Message -> BrainMemory -> BrainMemory;
  move_to_solution : BrainMemory -> BrainMemory;
  BrainMemory_init : Snapshot -> result BrainMemory;
  history_text_move_to_solution :
    forall m, history_text (move_to_solution m) = EmptyString;
  move_to_solution_idemp :
    forall m, move_to_solution (move_to_solution m) = move_to_solution m;
}.

(** ** The world of one role *)

Inductive LogRecord (Snapshot : Type) :=
| log_info (msg : string)
| log_exception (e : Exn) (data : Snapshot).
Arguments log_info {Snapshot} msg.
Arguments log_exception {Snapshot} e data.

(** [memory] is [self.memory], [todo] is [self._rc.todo]; [calls] lists
    the requests sent to the oracle and [logs] the records written to the
    logger, oldest first. *)
Record World (BrainMemory Snapshot : Type) := {
  memory : BrainMemory;
  todo : option Action;
  calls : list OracleCall;
  logs : list (LogRecord Snapshot);
}.
Arguments memory {BrainMemory Snapshot} w.
Arguments todo {BrainMemory Snapshot} w.
Arguments calls {BrainMemory Snapshot} w.
Arguments logs {BrainMemory Snapshot} w.

(** ** The monad of the role's methods *)

(** A method runs in a world and leaves a world, also when it raises. *)
Definition M (W A : Type) : Type := W -> result A * W.

Definition ret {W A} (a : A) : M W A := fun w => (Ok a, w).

Definition bind {W A B} (c : M W A) (k : A -> M W B) : M W B :=
  fun w =>
    match c w with
    | (Ok a, w') => k a w'
    | (Raise e, w') => (Raise e, w')
    end.

Definition raise {W A} (e : Exn) : M W A := fun w => (Raise e, w).

(** A call that returns or raises without a look at the world. *)
Definition lift {W A} (r : result A) : M W A := fun w => (r, w).


Definition gets {W A} (f : W -> A) : M W A := fun w => (Ok (f w), w).

Definition modify {W} (f : W -> W) : M W unit := fun w => (Ok tt, f w).

Declare Scope role_scope.
Delimit Scope role_scope with role.
Notation "x <- c ;; k" := (bind c (fun x => k))
  (at level 100, c at next level, right associativity) : role_scope.
Notation "c ;; k" := (bind c (fun _ => k))
  (at level 100, right associativity) : role_scope.

Section Assistant.

Context {BrainMemory Snapshot : Type} `{!BrainMemoryOps BrainMemory Snapshot}.

Variable llm : LLM.
Variable skills : SkillLoader.

(** Modelled from the spec: [ArgumentsParingAction] is declared in
    [metagpt/actions/skill_action.py], which is not under src/.  Section 6:
    the argument resolver takes the capability and the refined utterance
    and gives the arguments or nothing; [run] stores them in
    [action.args]. *)
Variable ArgumentsParingAction_run : Skill -> string -> option Args.

(** Modelled from the spec: the [run] methods of [TalkAction] and
    [SkillAction] are not under src/.  Section 6: the executor gives a
    textual output or nothing for a pending action; it may also fail. *)
Variable Action_run : Action -> result (option RunResult).

Abbreviation W := (World BrainMemory Snapshot).
Abbreviation Role := (M W).

Local Open Scope role_scope.

Definition set_memory (m : BrainMemory) (w : W) : W :=
  {| memory := m; todo := todo w; calls := calls w; logs := logs w |}.

Definition set_todo (a : option Action) (w : W) : W :=
  {| memory := memory w; todo := a; calls := calls w; logs := logs w |}.

Definition add_call (c : OracleCall) (w : W) : W :=
  {| memory := memory w; todo := todo w; calls := calls w ++ [c];
     logs := logs w |}.

Definition add_log (r : LogRecord Snapshot) (w : W) : W :=
  {| memory := memory w; todo := todo w; calls := calls w;
     logs := logs w ++ [r] |}.

(** One request to the oracle: it is recorded, then answered or raised. *)
Definition ask {A} (c : OracleCall) (answer : option A) : Role A :=
  modify (add_call c) ;;
  match answer with
  | Some a => ret a
  | None => raise (OracleError c)
  end.

Definition logger_info (msg : string) : Role unit :=
  modify (add_log (log_info msg)).


(** Modelled from the spec: [Role.add_to_do] is declared in
    [metagpt/roles/role.py], which is not under src/.  Section 4.5, step 5:
    the action is stored as the thing to execute next. *)
Definition add_to_do (action : Action) : Role unit :=
  modify (set_todo (Some action)).

(** *** [talk_handler] and [skill_handler]

    [kwargs] holds the one keyword [think] passes on, [last_talk]. *)

Definition talk_handler (text : string) (kw_last_talk : string) : Role bool :=
  knowledge <- gets (fun w => get_knowledge (memory w)) ;;
  let action := TalkAction text knowledge kw_last_talk in
  add_to_do action ;;
  ret true.

Definition skill_handler (text : string) (kw_last_talk : string) : Role bool :=
  let last_talk := kw_last_talk in
  match get_skill skills text with
  | None =>
      logger_info ("skill not found: " +:+ text) ;;
      talk_handler last_talk kw_last_talk
  | Some skill =>
      match ArgumentsParingAction_run skill kw_last_talk with
      | None => talk_handler last_talk kw_last_talk
      | Some args =>
          let action := SkillAction skill args (name skill) (description skill) in
          add_to_do action ;;
          ret true
      end
  end.

(** *** [_plan] *)

(** The dict [handlers]; the entries are written in the order of the
    source. *)
Definition handlers : gmap string (string -> string -> Role bool) :=
  <[MessageType.value MessageType.Skill := skill_handler]>
    (<[MessageType.value MessageType.Problem := talk_handler]>
      (<[MessageType.value MessageType.Talk := talk_handler]> ∅)).

(** [handlers.get(skill, self.talk_handler)]. *)
Definition handlers_get (skill : string) : string -> string -> Role bool :=
  default talk_handler (handlers !! skill).

Definition _plan (rsp : string) (kw_last_talk : string) : Role bool :=
  let '(skill, text) := extract_info rsp in
  let handler := handlers_get skill in
  handler text kw_last_talk.

(** *** [refine_memory] *)

Definition refine_memory : Role (option string) :=
  history_text <- gets (fun w => history_text (memory w)) ;;
  last_talk <- gets (fun w => last_talk (memory w)) ;;
  match last_talk with
  | None => ret None
  | Some last_talk =>
      if String.eqb history_text EmptyString then ret (Some last_talk)
      else
        history_summary <-
          ask (get_context_title_call history_text 20)
              (get_context_title llm history_text 20) ;;
        related <-
          (if truthy last_talk
           then ask (is_related_call last_talk history_summary)
                    (is_related llm last_talk history_summary)
           else ret false) ;;
        if (related : bool) then
          last_talk <-
            ask (rewrite_call last_talk history_text)
                (rewrite llm last_talk history_text) ;;
          ret (Some last_talk)
        else
          modify (fun w => set_memory (move_to_solution (memory w)) w) ;;
          ret (Some last_talk)
  end.

(** *** [think] *)

Definition skill_line (item : string * string) : string :=
  let '(desc, name) := item in
  "If want you to do " +:+ desc +:+ ", return `[SKILL]: " +:+ name +:+
  "` brief and clear. For instance: [SKILL]: text_to_image" +:+ nl.

Definition build_prompt (last_talk : string) : string :=
  let prompt := "Refer to this sentence:" +:+ nl +:+ " " +:+ last_talk +:+ nl in
  let prompt :=
    fold_left (fun prompt item => prompt +:+ skill_line item)
              (get_skill_list skills) prompt in
  let prompt := prompt +:+
    "If the preceding text presents a complete question and solution, rewrite and return `[SOLUTION]: {problem}` brief and clear. For instance: [SOLUTION]: Solution for distributing watermelon" +:+ nl in
  let prompt := prompt +:+
    "If the preceding text presents an unresolved issue and its corresponding discussion, rewrite and return `[PROBLEM]: {problem}` brief and clear. For instance: [PROBLEM]: How to distribute watermelon?" +:+ nl in
  prompt +:+
    "Otherwise, rewrite and return `[TALK]: {talk}` brief and clear. For instance: [TALK]: distribute watermelon".

(** [not last_talk] holds for [None] and for the empty text. *)
Definition think : Role bool :=
  last_talk <- refine_memory ;;
  match last_talk with
  | None => ret false
  | Some last_talk =>
      if negb (truthy last_talk) then ret false
      else
        let prompt := build_prompt last_talk in
        logger_info prompt ;;
        rsp <- ask (aask_call prompt []) (aask llm prompt []) ;;
        logger_info rsp ;;
        _plan rsp last_talk
  end.

(** *** [act] *)

Definition act : Role (option ActionOutput) :=
  todo <- gets todo ;;
  match todo with
  | None => raise (AttributeError "run")
  | Some action =>
      result <- lift (Action_run action) ;;
      if not_result result then ret None
      else
        match result with
        | None => ret None
        | Some (RStr s) =>
            let msg := {| content := s; instruct_content := None;
                          cause_by := None; tags := ∅ |} in
            let output := {| output_content := s;
                             output_instruct_content := None |} in
            modify (fun w => set_memory (add_answer msg (memory w)) w) ;;
            ret (Some output)
        | Some (ROutput o) =>
            let msg := {| content := output_content o;
                          instruct_content := output_instruct_content o;
                          cause_by := Some (type action); tags := ∅ |} in
            let output := o in
            modify (fun w => set_memory (add_answer msg (memory w)) w) ;;
            ret (Some output)
        end
  end.

(** *** [talk] *)

Definition talk (text : string) : Role unit :=
  let msg := {| content := text; instruct_content := None; cause_by := None;
                tags := {[ MessageType.value MessageType.Talk ]} |} in
  modify (fun w => set_memory (add_talk msg (memory w)) w).

(** *** [load_memory] *)


(** *** Worlds named in the properties *)

(** The world the talk handler leaves. *)
Definition talk_todo (text lt : string) (w : W) : W :=
  set_todo (Some (TalkAction text (get_knowledge (memory w)) lt)) w.

(** The world after the classification request for [lt] was answered by
    [rsp]: the prompt is logged, the request sent, the answer logged. *)
Definition classified (lt rsp : string) (w : W) : W :=
  add_log (log_info rsp)
    (add_call (aask_call (build_prompt lt) [])
       (add_log (log_info (build_prompt lt)) w)).

(** The answer entry [act] adds for a text and for an output object. *)
Definition answer_of_str (s : string) : Message :=
  {| content := s; instruct_content := None; cause_by := None; tags := ∅ |}.

Definition answer_of_output (action : Action) (o : ActionOutput) : Message :=
  {| content := output_content o;
     instruct_content := output_instruct_content o;
     cause_by := Some (type action); tags := ∅ |}.

End Assistant.

(** The requests of refinement, as opposed to the classification. *)
Definition refinement_call (c : OracleCall) : bool :=
  match c with
  | aask_call _ _ => false
  | _ => true
  end.

(** ** A conversation memory *)

Module ConversationMemory.

(** Modelled from the spec: the data model of section 3.  An utterance
    has a content, a role and tags (here the message as it was added and
    its role); the model has no clock and leaves the timestamp out.  The
    memory is the log since the last checkpoint and what the checkpoints
    archived. *)
Inductive role := talk_role | answer_role.

Record Utterance := {
  message : Message;
  utterance_role : role;
}.

Record t := {
  log : list Utterance;
  archive : list Utterance;
}.

Definition empty : t := {| log := []; archive := [] |}.

Definition add_talk (msg : Message) (m : t) : t :=
  {| log := log m ++ [ {| message := msg; utterance_role := talk_role |} ];
     archive := archive m |}.

Definition add_answer (msg : Message) (m : t) : t :=
  {| log := log m ++ [ {| message := msg; utterance_role := answer_role |} ];
     archive := archive m |}.

(** The most recent entry, when it is a talk no answer has followed. *)
Definition last_talk (m : t) : option string :=
  match last (log m) with
  | Some u =>
      match utterance_role u with
      | talk_role => Some (content (message u))
      | answer_role => None
      end
  | None => None
  end.

(** The entries of the log in order, without the current last talk. *)
Definition history (m : t) : list Utterance :=
  match last_talk m with
  | Some _ => removelast (log m)
  | None => log m
  end.

Definition history_text (m : t) : string :=
  fold_right (fun u s => content (message u) +:+ s) EmptyString (history m).

Definition knowledge_bound : nat := 500.

(** The knowledge excerpt: a bounded view of the history text. *)
Definition get_knowledge (m : t) : string :=
  substring 0 knowledge_bound (history_text m).

(** The checkpoint archives the log and clears it. *)
Definition move_to_solution (m : t) : t :=
  match log m with
  | [] => m
  | _ :: _ => {| log := []; archive := archive m ++ log m |}
  end.

(** A snapshot is a structured value. *)
#[local] Unset Elimination Schemes.
Inductive Json :=
| JNull
| JStr (s : string)
| JList (l : list Json)
| JDict (d : list (string * Json)).
#[local] Set Elimination Schemes.

Fixpoint field (k : string) (d : list (string * Json)) : option Json :=
  match d with
  | [] => None
  | (k', v) :: d' => if String.eqb k k' then Some v else field k d'
  end.

Definition utterance_of_json (j : Json) : option Utterance :=
  match j with
  | JDict d =>
      match field "content" d, field "role" d with
      | Some (JStr c), Some (JStr r) =>
          let msg := {| content := c; instruct_content := None;
                        cause_by := None; tags := ∅ |} in
          if String.eqb r "talk"
          then Some {| message := msg; utterance_role := talk_role |}
          else if String.eqb r "answer"
          then Some {| message := msg; utterance_role := answer_role |}
          else None
      | _, _ => None
      end
  | _ => None
  end.

Fixpoint utterances_of_json (l : list Json) : option (list Utterance) :=
  match l with
  | [] => Some []
  | j :: l' =>
      match utterance_of_json j, utterances_of_json l' with
      | Some u, Some us => Some (u :: us)
      | _, _ => None
      end
  end.

(** The constructor on a snapshot: a mapping whose ["log"], when given, is
    a list of utterances; anything else is malformed. *)
Definition init (jsn : Json) : result t :=
  match jsn with
  | JDict d =>
      match field "log" d with
      | None => Ok empty
      | Some (JList l) =>
          match utterances_of_json l with
          | Some us => Ok {| log := us; archive := [] |}
          | None => Raise (ValidationError "log")
          end
      | Some _ => Raise (ValidationError "log")
      end
  | _ => Raise (TypeError "argument after ** must be a mapping")
  end.

#[global] Instance ops : BrainMemoryOps t Json.
Proof.
  refine (Build_BrainMemoryOps t Json last_talk history_text get_knowledge
            add_talk add_answer move_to_solution init _ _).
  - intros [l a]. destruct l; reflexivity.
  - intros [l a]. destruct l; reflexivity.
Defined.

End ConversationMemory.

(** ** A sample role *)

Module Scenario.

Definition text_to_image : Skill :=
  {| name := "text_to_image";
     description := "Create a drawing based on the text.";
     arguments := [("text", "The text used for image conversion.")] |}.

Definition catalog : SkillLoader :=
  {| get_skill_list := [(description text_to_image, name text_to_image)];
     get_skill := fun n =>
       if String.eqb n (name text_to_image) then Some text_to_image else None |}.

(** A resolver that finds the text to draw only in a sentence that starts
    with "draw ". *)
Definition resolver (skill : Skill) (last_talk : string) : option Args :=
  match after_prefix "draw " last_talk with
  | Some rest => Some [("text", rest)]
  | None => None
  end.

(** An executor that echoes the subject of a talk action. *)
Definition executor (a : Action) : result (option RunResult) :=
  match a with
  | TalkAction talk _ _ => Ok (Some (RStr talk))
  | SkillAction _ _ _ _ => Ok None
  end.

Definition say (text : string) : Message :=
  {| content := text; instruct_content := None; cause_by := None;
     tags := {[ MessageType.value MessageType.Talk ]} |}.

Definition world_of (m : ConversationMemory.t)
  : World ConversationMemory.t ConversationMemory.Json :=
  {| memory := m; todo := None; calls := []; logs := [] |}.

(** A conversation that has just begun. *)
Definition fresh : ConversationMemory.t :=
  ConversationMemory.add_talk (say "what's apple") ConversationMemory.empty.

(** A conversation with one finished exchange and a new sentence. *)
Definition ongoing : ConversationMemory.t :=
  ConversationMemory.add_talk (say "and pears?")
    (ConversationMemory.add_answer (answer_of_str "a fruit") fresh).

(** A conversation whose last entry is an answer. *)
Definition answered : ConversationMemory.t :=
  ConversationMemory.add_answer (answer_of_str "a fruit") fresh.

(** An oracle that classifies every sentence with the text [rsp] and finds
    every sentence related or not as [related] says. *)
Definition oracle (rsp : string) (related : bool) : LLM :=
  {| aask := fun _ _ => Some rsp;
     get_context_title := fun _ _ => Some "fruit";
     is_related := fun _ _ => Some related;
     rewrite := fun _ _ => Some "what are pears, like apples?" |}.


(** One turn of [main] and the start of the next: the user talks, the
    role thinks and acts, and thinks again before the user has answered. *)
Definition turn (llm : LLM) (topic : string)
  : M (World ConversationMemory.t ConversationMemory.Json)
      (bool * option ActionOutput * bool) :=
  (talk topic ;;
   has_action <- think llm catalog resolver ;;
   msg <- act executor ;;
   again <- think llm catalog resolver ;;
   ret (has_action, msg, again))%role.

End Scenario.

(** ** The prompt, the constructor and [main] *)

(** The texts of a list, one after the other. *)
Definition join (l : list string) : string :=
  fold_right String.append EmptyString l.

(** The first line of the prompt of [think] and its three last lines. *)
Definition prompt_header (last_talk : string) : string :=
  "Refer to this sentence:" +:+ nl +:+ " " +:+ last_talk +:+ nl.

Definition prompt_footer : string :=
  "If the preceding text presents a complete question and solution, rewrite and return `[SOLUTION]: {problem}` brief and clear. For instance: [SOLUTION]: Solution for distributing watermelon" +:+ nl +:+
  "If the preceding text presents an unresolved issue and its corresponding discussion, rewrite and return `[PROBLEM]: {problem}` brief and clear. For instance: [PROBLEM]: How to distribute watermelon?" +:+ nl +:+
  "Otherwise, rewrite and return `[TALK]: {talk}` brief and clear. For instance: [TALK]: distribute watermelon".

(** The classification requests among the requests of a trace. *)
Definition classifications (l : list OracleCall) : list OracleCall :=
  List.filter (fun c => negb (refinement_call c)) l.

(** The keys [__init__] reads in [options]: [options.get(BRAIN_MEMORY)]
    and [options.get(SKILL_PATH)], [None] for a key that is not there. *)
Record Options (Snapshot : Type) := {
  BRAIN_MEMORY : option Snapshot;
  SKILL_PATH : option string;
}.
Arguments BRAIN_MEMORY {Snapshot} o.
Arguments SKILL_PATH {Snapshot} o.

Section Construction.

Context {BrainMemory Snapshot : Type} `{!BrainMemoryOps BrainMemory Snapshot}.

(** [BrainMemory()], the memory built from no field at all. *)
Variable BrainMemory_default : BrainMemory.

(** Python's truth value of the snapshot found in [options]: false for an
    empty mapping. *)
Variable Snapshot_bool : Snapshot -> bool.

(** [pathlib.Path(text)]: the path object the text denotes, kept as its
    normal text (no doubled or trailing separator, no [.] component). *)
Variable Path : string -> string.

(** [SkillLoader(skill_yaml_file_name=skill_path)]; the loader reads a
    file and is not under src/, so it may fail. *)
Variable SkillLoader_init : option string -> result SkillLoader.

(** [__init__], after the constructor of [Role] has returned: the memory
    and the catalog of the new assistant. *)
Definition Assistant_init (options : Options Snapshot)
  : result (BrainMemory * SkillLoader) :=
  let brain_memory := BRAIN_MEMORY options in
  let memory :=
    match brain_memory with
    | Some jsn =>
        if Snapshot_bool jsn then BrainMemory_init jsn
        else Ok BrainMemory_default
    | None => Ok BrainMemory_default
    end in
  match memory with
  | Raise e => Raise e
  | Ok memory =>
      let skill_path :=
        match SKILL_PATH options with
        | Some path => if truthy path then Some (Path path) else None
        | None => None
        end in
      match SkillLoader_init skill_path with
      | Raise e => Raise e
      | Ok skills => Ok (memory, skills)
      end
  end.

End Construction.

(** What can leave [main]: an exception of the role, or the [EOFError] of
    [input] on a standard input that has come to its end. *)
Inductive MainExn :=
| RoleError (e : Exn)
| EOFError.

Inductive outcome (A : Type) :=
| Done (a : A)
| Failed (e : MainExn).
Arguments Done {A} a.
Arguments Failed {A} e.

Definition Main (W A : Type) : Type := W -> outcome A * W.

Definition done {W A} (a : A) : Main W A := fun w => (Done a, w).

Definition fail {W A} (e : MainExn) : Main W A := fun w => (Failed e, w).

(** [await role.method()]. *)
Definition role {W A} (c : M W A) : Main W A :=
  fun w =>
    match c w with
    | (Ok a, w') => (Done a, w')
    | (Raise e, w') => (Failed (RoleError e), w')
    end.

Definition main_bind {W A B} (c : Main W A) (k : A -> Main W B) : Main W B :=
  fun w =>
    match c w with
    | (Done a, w') => k a w'
    | (Failed e, w') => (Failed e, w')
    end.

Declare Scope main_scope.
Delimit Scope main_scope with main.
Notation "x <- c ;; k" := (main_bind c (fun x => k))
  (at level 100, c at next level, right associativity) : main_scope.
Notation "c ;; k" := (main_bind c (fun _ => k))
  (at level 100, right associativity) : main_scope.

Section Main.

Context {BrainMemory Snapshot : Type} `{!BrainMemoryOps BrainMemory Snapshot}.

Variable llm : LLM.
Variable skills : SkillLoader.
Variable ArgumentsParingAction_run : Skill -> string -> option Args.
Variable Action_run : Action -> result (option RunResult).

(** The text [logger.info(msg)] writes for what [act] returned. *)
Variable str : option ActionOutput -> string.

Abbreviation W := (World BrainMemory Snapshot).

Local Open Scope main_scope.

(** The [while True] loop of [main].  [inputs] is the standard input: the
    lines the user types, in order, and then its end, where
    [input("You: ")] raises [EOFError].  [Done tt] is the [break]. *)
Fixpoint main_loop (inputs : list string) : Main W unit :=
  has_action <- role (think llm skills ArgumentsParingAction_run) ;;
  if negb has_action then done tt
  else
    msg <- role (act Action_run) ;;
    role (logger_info (str msg)) ;;
    role (logger_info "Enter prompt") ;;
    match inputs with
    | [] => fail EOFError
    | talk_ :: inputs' => role (talk talk_) ;; main_loop inputs'
    end.

(** [main], from the role it has built. *)
Definition main (inputs : list string) : Main W unit :=
  let topic := "what's apple" in
  role (talk topic) ;;
  main_loop inputs.

End Main.

(** ** Samples for the constructor and [main] *)

Module Setup.

(** The truth value of a snapshot: nothing, an empty text, an empty list
    and an empty mapping are false. *)
Definition json_bool (j : ConversationMemory.Json) : bool :=
  match j with
  | ConversationMemory.JNull => false
  | ConversationMemory.JStr s => truthy s
  | ConversationMemory.JList [] => false
  | ConversationMemory.JList (_ :: _) => true
  | ConversationMemory.JDict [] => false
  | ConversationMemory.JDict (_ :: _) => true
  end.

(** The components of a path text, cut at every [/]. *)
Fixpoint components (cur : string) (s : string) : list string :=
  match s with
  | EmptyString => [String.rev cur]
  | String c s' =>
      if Ascii.eqb c "/"%char then String.rev cur :: components EmptyString s'
      else components (String c cur) s'
  end.

(** A path in normal text, the way [pathlib] keeps it: empty and [.]
    components are dropped, a leading [/] is kept, and nothing at all is
    the path [.]. *)
Definition posix_path (s : string) : string :=
  let kept :=
    List.filter (fun c => negb (String.eqb c EmptyString || String.eqb c "."))
      (components EmptyString s) in
  let body := String.concat "/" kept in
  match s with
  | String "/"%char _ => "/" +:+ body
  | _ => if truthy body then body else "."
  end.

(** A loader that knows one file. *)
Definition loader (path : option string) : result SkillLoader :=
  match path with
  | None => Ok Scenario.catalog
  | Some p =>
      if String.eqb p "conf/skills.yaml" then Ok Scenario.catalog
      else Raise (ValidationError p)
  end.



(** An oracle whose rewrite is the empty text. *)
Definition oracle_mute : LLM :=
  {| aask := fun _ _ => Some "[TALK]: x";
     get_context_title := fun _ _ => Some "fruit";
     is_related := fun _ _ => Some true;
     rewrite := fun _ _ => Some EmptyString |}.

(** A conversation whose last talk is the empty text. *)
Definition silent : ConversationMemory.t :=
  ConversationMemory.add_talk (Scenario.say EmptyString)
    (ConversationMemory.add_answer (answer_of_str "a fruit") Scenario.fresh).

(** An executor that fails on a skill action. *)
Definition executor_down (a : Action) : result (option RunResult) :=
  match a with
  | TalkAction talk _ _ => Ok (Some (RStr talk))
  | SkillAction _ _ _ _ => Raise (ActionError "no drawing today")
  end.

Definition render (msg : option ActionOutput) : string :=
  match msg with
  | None => "None"
  | Some o => output_content o
  end.

End Setup.

(** * Properties *)

(** ** Trimming *)

(** [lstrip] takes white space off the front and stops at the first
    character that is none. *)
Lemma lstrip_spec (s : string) :
  exists ws,
    s = ws +:+ lstrip s /\ all_space ws /\
    match lstrip s with
    | EmptyString => True
    | String a _ => Ascii.is_space a = false
    end.
Proof.
  induction s as [|a s (ws & Hs & Hws & Hhead)].
  - exists EmptyString. split; [reflexivity|]. split; [|exact I].
    intros [|b pre] post c Heq; discriminate.
  - simpl. destruct (Ascii.is_space a) eqn:Ha.
    + exists (String a ws). split; [|split; [|exact Hhead]].
      * change (String a ws +:+ lstrip s) with (String a (ws +:+ lstrip s)).
        now rewrite <- Hs.
      * intros [|b pre] post c Heq.
        -- change (EmptyString +:+ String c post) with (String c post) in Heq.
           injection Heq as <- _. exact Ha.
        -- change (String b pre +:+ String c post)
             with (String b (pre +:+ String c post)) in Heq.
           injection Heq as _ Heq. exact (Hws _ _ _ Heq).
    + exists EmptyString. split; [reflexivity|]. split; [|exact Ha].
      intros [|b pre] post c Heq; discriminate.
Qed.

Example strip_both_ends :
  strip (" " +:+ nl +:+ "hello  world " +:+ nl) = "hello  world".
Proof. reflexivity. Qed.

Example strip_blank : strip "   " = EmptyString.
Proof. reflexivity. Qed.

(** ** The parser *)

Lemma after_prefix_Some (p s r : string) :
  after_prefix p s = Some r -> s = p +:+ r.
Proof.
  revert s. induction p as [|a p IH]; intros s Hs.
  - simpl in Hs. injection Hs as ->. reflexivity.
  - destruct s as [|b s]; simpl in Hs; [discriminate|].
    destruct (Ascii.eqb_spec a b) as [->|]; [|discriminate].
    rewrite (IH _ Hs). reflexivity.
Qed.

Lemma after_prefix_app (p r : string) : after_prefix p (p +:+ r) = Some r.
Proof.
  induction p as [|a p IH]; [reflexivity|].
  change (String a p +:+ r) with (String a (p +:+ r)). simpl.
  rewrite Ascii.eqb_refl. exact IH.
Qed.

Lemma occurs_here (m r : string) : occurs m (m +:+ r).
Proof. exists EmptyString, r. reflexivity. Qed.

Lemma occurs_later (m s : string) (a : ascii) :
  occurs m s -> occurs m (String a s).
Proof.
  intros (pre & post & ->). exists (String a pre), post. reflexivity.
Qed.

Lemma occursb_unfold (m s : string) :
  occursb m s =
  match after_prefix m s with
  | Some _ => true
  | None => match s with EmptyString => false | String _ s' => occursb m s' end
  end.
Proof. destruct s; reflexivity. Qed.

Lemma occursb_complete (m s : string) : occurs m s -> occursb m s = true.
Proof.
  intros (pre & post & ->). induction pre as [|a pre IH].
  - change (EmptyString +:+ m +:+ post) with (m +:+ post).
    rewrite occursb_unfold, after_prefix_app. reflexivity.
  - change (String a pre +:+ m +:+ post) with (String a (pre +:+ m +:+ post)).
    rewrite occursb_unfold, IH. destruct (after_prefix m _); reflexivity.
Qed.

Lemma occursb_false (m s : string) : occursb m s = false -> ~ occurs m s.
Proof.
  intros Hb Ho. rewrite (occursb_complete _ _ Ho) in Hb. discriminate.
Qed.

Lemma marker_at_Some ms s t rest :
  marker_at ms s = Some (t, rest) ->
  exists m, In (t, m) ms /\ s = m +:+ rest.
Proof.
  induction ms as [|[t' m'] ms IH]; simpl; [discriminate|].
  destruct (after_prefix m' s) as [r|] eqn:Hp.
  - intros [= -> ->]. exists m'. split; [now left|].
    now apply after_prefix_Some.
  - intros H. destruct (IH H) as (m & Hin & Hs). exists m. split; [now right|assumption].
Qed.

Lemma scan_unfold (s : string) :
  scan s =
  match marker_at markers s with
  | Some r => Some r
  | None => match s with EmptyString => None | String _ s' => scan s' end
  end.
Proof. destruct s; reflexivity. Qed.

Lemma scan_Some (s : string) t rest :
  scan s = Some (t, rest) -> exists m, In (t, m) markers /\ occurs m s.
Proof.
  induction s as [|a s IH]; rewrite scan_unfold.
  - destruct (marker_at markers EmptyString) as [[t' r]|] eqn:Hm; [|discriminate].
    intros [= -> ->]. destruct (marker_at_Some _ _ _ _ Hm) as (m & Hin & Hs).
    exists m. split; [assumption|]. rewrite Hs. apply occurs_here.
  - destruct (marker_at markers (String a s)) as [[t' r]|] eqn:Hm.
    + intros [= -> ->]. destruct (marker_at_Some _ _ _ _ Hm) as (m & Hin & Hs).
      exists m. split; [assumption|]. rewrite Hs. apply occurs_here.
    + intros H. destruct (IH H) as (m & Hin & Ho).
      exists m. split; [assumption|]. now apply occurs_later.
Qed.

Lemma scan_None (s : string) :
  (forall t m, In (t, m) markers -> ~ occurs m s) -> scan s = None.
Proof.
  intros Hno. destruct (scan s) as [[t rest]|] eqn:Hs; [|reflexivity].
  destruct (scan_Some _ _ _ Hs) as (m & Hin & Ho).
  destruct (Hno _ _ Hin Ho).
Qed.

(** Every tag the parser gives is the value of a message type. *)
Lemma extract_info_tag (s : string) :
  exists t, (extract_info s).1 = MessageType.value t.
Proof.
  unfold extract_info. destruct (scan s) as [[t rest]|].
  - now exists t.
  - now exists MessageType.Talk.
Qed.

(** A marker in front, and a marker further in. *)
Example extract_info_talk :
  extract_info "[TALK]: apple info" = ("TALK", "apple info").
Proof. reflexivity. Qed.

(** The text of the example of section 8, by the rule of section 4.3: the
    whole remainder is the payload. *)
Example extract_info_skill :
  extract_info "sure, [SKILL]: text_to_image please"
  = ("SKILL", "text_to_image please").
Proof. reflexivity. Qed.

(** The first marker wins, wherever the others stand. *)
Example extract_info_first :
  extract_info "[PROBLEM]: is it [TALK]: or not" = ("PROBLEM", "is it [TALK]: or not").
Proof. reflexivity. Qed.

(** ** The router *)

Section Router.

Context {BrainMemory Snapshot : Type} `{!BrainMemoryOps BrainMemory Snapshot}.

Variable skills : SkillLoader.
Variable resolver : Skill -> string -> option Args.

Abbreviation W := (World BrainMemory Snapshot).

Implicit Types (w : W) (text lt rsp skill : string).

Lemma talk_handler_run text lt w :
  talk_handler text lt w = (Ok true, talk_todo text lt w).
Proof. reflexivity. Qed.

Lemma handlers_get_Skill :
  handlers_get skills resolver (MessageType.value MessageType.Skill)
  = skill_handler skills resolver.
Proof. unfold handlers_get, handlers. now rewrite lookup_insert_eq. Qed.

Lemma handlers_get_other skill :
  skill <> MessageType.value MessageType.Skill ->
  handlers_get skills resolver skill = talk_handler.
Proof.
  intros Hs. unfold handlers_get, handlers.
  rewrite lookup_insert_ne by congruence.
  destruct (decide (skill = MessageType.value MessageType.Problem)) as [->|Hp].
  { now rewrite lookup_insert_eq. }
  rewrite lookup_insert_ne by congruence.
  destruct (decide (skill = MessageType.value MessageType.Talk)) as [->|Ht].
  { now rewrite lookup_insert_eq. }
  rewrite lookup_insert_ne by congruence.
  now rewrite lookup_empty.
Qed.

Lemma skill_handler_run text lt w :
  exists w',
    skill_handler skills resolver text lt w = (Ok true, w') /\
    memory w' = memory w /\ calls w' = calls w.
Proof.
  unfold skill_handler.
  destruct (get_skill skills text) as [sk|].
  - destruct (resolver sk lt) as [args|]; cbn;
      (eexists; split; [reflexivity|]; now split).
  - cbn. eexists; split; [reflexivity|]. now split.
Qed.

Lemma plan_run rsp lt w :
  exists w',
    _plan skills resolver rsp lt w = (Ok true, w') /\
    memory w' = memory w /\ calls w' = calls w.
Proof.
  unfold _plan. destruct (extract_info rsp) as [skill text].
  destruct (decide (skill = MessageType.value MessageType.Skill)) as [->|Hs].
  - rewrite handlers_get_Skill. apply skill_handler_run.
  - rewrite (handlers_get_other _ Hs), talk_handler_run.
    eexists; split; [reflexivity|]. now split.
Qed.

(** C7.  An oracle output that holds none of the four markers [SKILL],
    [SOLUTION], [PROBLEM], [TALK] is parsed as tag Talk with the whole
    trimmed input as payload, and the cycle goes on: [_plan] returns true
    with a talk action on that payload. *)
Theorem extract_info_without_marker rsp lt w :
  (forall t m, In (t, m) markers -> ~ occurs m rsp) ->
  extract_info rsp = (MessageType.value MessageType.Talk, strip rsp) /\
  _plan skills resolver rsp lt w = (Ok true, talk_todo (strip rsp) lt w).
Proof.
  intros Hno. pose proof (scan_None _ Hno) as Hscan.
  assert (He : extract_info rsp
               = (MessageType.value MessageType.Talk, strip rsp)).
  { unfold extract_info. now rewrite Hscan. }
  split; [exact He|].
  unfold _plan. rewrite He.
  rewrite handlers_get_other by discriminate.
  apply talk_handler_run.
Qed.

(** C10.  A parsed tag that is not Talk, Problem or Skill, the Solution
    tag among them, finds no entry in [handlers]: [_plan] takes the default,
    runs the talk handler on the payload and returns true. *)
Theorem plan_default_arm rsp lt w :
  (extract_info rsp).1 = MessageType.value MessageType.Solution \/
  ((extract_info rsp).1 <> MessageType.value MessageType.Talk /\
   (extract_info rsp).1 <> MessageType.value MessageType.Problem /\
   (extract_info rsp).1 <> MessageType.value MessageType.Skill) ->
  handlers skills resolver !! (extract_info rsp).1 = None /\
  handlers_get skills resolver (extract_info rsp).1 = talk_handler /\
  _plan skills resolver rsp lt w = talk_handler (extract_info rsp).2 lt w /\
  _plan skills resolver rsp lt w
  = (Ok true, talk_todo (extract_info rsp).2 lt w).
Proof.
  intros Htag.
  assert (Hne : (extract_info rsp).1 <> MessageType.value MessageType.Talk /\
                (extract_info rsp).1 <> MessageType.value MessageType.Problem /\
                (extract_info rsp).1 <> MessageType.value MessageType.Skill).
  { destruct Htag as [->|Hne]; [|exact Hne]. repeat split; discriminate. }
  destruct Hne as (Ht & Hp & Hs).
  assert (Hnone : handlers skills resolver !! (extract_info rsp).1 = None).
  { unfold handlers. rewrite !lookup_insert_ne by congruence.
    apply lookup_empty. }
  assert (Hget : handlers_get skills resolver (extract_info rsp).1
                 = talk_handler).
  { unfold handlers_get. now rewrite Hnone. }
  assert (Hplan : _plan skills resolver rsp lt w
                  = talk_handler (extract_info rsp).2 lt w).
  { unfold _plan. destruct (extract_info rsp) as [skill text]. simpl in *.
    now rewrite Hget. }
  split; [exact Hnone|]. split; [exact Hget|]. split; [exact Hplan|].
  rewrite Hplan. apply talk_handler_run.
Qed.

(** The skill handler by itself, for whatever text it is given as the
    last-talk keyword: it returns true in every branch, and so does
    [_plan]; when the payload names no skill of the catalog, or the
    argument resolver finds no arguments for the skill it names, the
    pending action is the talk action on the keyword, not on the payload. *)
Lemma skill_handler_fallback text lt w :
  (skill_handler skills resolver text lt w).1 = Ok true /\
  (forall rsp, (_plan skills resolver rsp lt w).1 = Ok true) /\
  (get_skill skills text = None ->
   skill_handler skills resolver text lt w
   = (Ok true,
      talk_todo lt lt (add_log (log_info ("skill not found: " +:+ text)) w))) /\
  (forall sk, get_skill skills text = Some sk -> resolver sk lt = None ->
   skill_handler skills resolver text lt w = (Ok true, talk_todo lt lt w)) /\
  (get_skill skills text = None \/
   (exists sk, get_skill skills text = Some sk /\ resolver sk lt = None) ->
   todo (skill_handler skills resolver text lt w).2
   = Some (TalkAction lt (get_knowledge (memory w)) lt) /\
   forall rsp, extract_info rsp = (MessageType.value MessageType.Talk, lt) ->
     todo (_plan skills resolver rsp lt w).2
     = todo (skill_handler skills resolver text lt w).2).
Proof.
  assert (Hmiss : get_skill skills text = None ->
    skill_handler skills resolver text lt w
    = (Ok true,
       talk_todo lt lt (add_log (log_info ("skill not found: " +:+ text)) w))).
  { intros Hn. unfold skill_handler. now rewrite Hn. }
  assert (Hargs : forall sk, get_skill skills text = Some sk ->
    resolver sk lt = None ->
    skill_handler skills resolver text lt w = (Ok true, talk_todo lt lt w)).
  { intros sk Hsk Hr. unfold skill_handler. now rewrite Hsk, Hr. }
  split; [|split; [|split; [exact Hmiss|split; [exact Hargs|]]]].
  - destruct (skill_handler_run text lt w) as (w' & -> & _).
    reflexivity.
  - intros rsp. destruct (plan_run rsp lt w) as (w' & -> & _).
    reflexivity.
  - intros Hfall.
    assert (Htodo : todo (skill_handler skills resolver text lt w).2
                    = Some (TalkAction lt (get_knowledge (memory w)) lt)).
    { destruct Hfall as [Hn|(sk & Hsk & Hr)].
      - now rewrite (Hmiss Hn).
      - now rewrite (Hargs sk Hsk Hr). }
    split; [exact Htodo|].
    intros rsp Hrsp. rewrite Htodo. unfold _plan. rewrite Hrsp.
    rewrite handlers_get_other by discriminate.
    now rewrite talk_handler_run.
Qed.

End Router.

(** ** The cycle *)

Section Cycle.

Context {BrainMemory Snapshot : Type} `{!BrainMemoryOps BrainMemory Snapshot}.

Variable llm : LLM.
Variable skills : SkillLoader.
Variable resolver : Skill -> string -> option Args.

Abbreviation W := (World BrainMemory Snapshot).

Implicit Types (w : W) (text lt rsp skill : string).

Lemma eqb_empty_false (s : string) :
  s <> EmptyString -> String.eqb s EmptyString = false.
Proof. intros Hs. now apply String.eqb_neq. Qed.

(** C2.  Without a last talk, refinement returns [None] and [think]
    returns false; the world is the one they started in, so no request went
    to the oracle and no prompt was built or logged. *)
Theorem think_without_last_talk w :
  last_talk (memory w) = None ->
  refine_memory llm w = (Ok None, w) /\
  think llm skills resolver w = (Ok false, w).
Proof.
  intros Hlt.
  assert (Hr : refine_memory llm w = (Ok None, w)).
  { unfold refine_memory, bind, gets. now rewrite Hlt. }
  split; [exact Hr|].
  unfold think, bind. now rewrite Hr.
Qed.

(** C4.  With an empty history text, refinement returns the last talk as
    memory has it and leaves the world as it was: no summary, relatedness
    or rewrite request is recorded. *)
Theorem refine_memory_empty_history w :
  history_text (memory w) = EmptyString ->
  refine_memory llm w = (Ok (last_talk (memory w)), w).
Proof.
  intros Hh. unfold refine_memory, bind, gets. rewrite Hh.
  now destruct (last_talk (memory w)).
Qed.

(** The two ways of refinement behind a relatedness check. *)
Lemma refine_memory_related w lt summary r :
  last_talk (memory w) = Some lt ->
  truthy lt = true ->
  history_text (memory w) <> EmptyString ->
  get_context_title llm (history_text (memory w)) 20 = Some summary ->
  is_related llm lt summary = Some true ->
  rewrite llm lt (history_text (memory w)) = Some r ->
  refine_memory llm w
  = (Ok (Some r),
     add_call (rewrite_call lt (history_text (memory w)))
       (add_call (is_related_call lt summary)
          (add_call (get_context_title_call (history_text (memory w)) 20) w))).
Proof.
  intros Hlt Ht Hh Hsum Hrel Hrw.
  unfold refine_memory, bind, gets, ask, modify, ret.
  rewrite Hlt, (eqb_empty_false _ Hh). cbn. rewrite Hsum, Ht. cbn.
  rewrite Hrel. cbn. rewrite Hrw. reflexivity.
Qed.

Lemma refine_memory_unrelated w lt summary :
  last_talk (memory w) = Some lt ->
  truthy lt = true ->
  history_text (memory w) <> EmptyString ->
  get_context_title llm (history_text (memory w)) 20 = Some summary ->
  is_related llm lt summary = Some false ->
  refine_memory llm w
  = (Ok (Some lt),
     set_memory (move_to_solution (memory w))
       (add_call (is_related_call lt summary)
          (add_call (get_context_title_call (history_text (memory w)) 20) w))).
Proof.
  intros Hlt Ht Hh Hsum Hrel.
  unfold refine_memory, bind, gets, ask, modify, ret.
  rewrite Hlt, (eqb_empty_false _ Hh). cbn. rewrite Hsum, Ht. cbn.
  rewrite Hrel. reflexivity.
Qed.

(** C3.  With a last talk and a non-empty history, once the summary is
    there and the relatedness check is made: on true, refinement returns
    the oracle's rewrite of the last talk in the context of the history and
    memory is as it was; on false, memory is checkpointed and refinement
    returns the last talk itself. *)
Theorem refine_memory_with_history w lt summary :
  last_talk (memory w) = Some lt ->
  truthy lt = true ->
  history_text (memory w) <> EmptyString ->
  get_context_title llm (history_text (memory w)) 20 = Some summary ->
  let h := history_text (memory w) in
  let asked :=
    add_call (is_related_call lt summary)
      (add_call (get_context_title_call h 20) w) in
  (forall r,
     is_related llm lt summary = Some true ->
     rewrite llm lt h = Some r ->
     refine_memory llm w = (Ok (Some r), add_call (rewrite_call lt h) asked) /\
     memory (add_call (rewrite_call lt h) asked) = memory w) /\
  (is_related llm lt summary = Some false ->
   refine_memory llm w
   = (Ok (Some lt), set_memory (move_to_solution (memory w)) asked) /\
   memory (set_memory (move_to_solution (memory w)) asked)
   = move_to_solution (memory w)).
Proof.
  intros Hlt Ht Hh Hsum h asked. subst h asked.
  split.
  - intros r Hrel Hrw. split; [|reflexivity].
    now apply refine_memory_related with (summary := summary).
  - intros Hrel. split; [|reflexivity].
    now apply refine_memory_unrelated.
Qed.

(** Refinement never touches the pending action; when it raises, memory
    is as it was; when it returns, memory is as it was or checkpointed. *)
Lemma refine_memory_outcome w r w1 :
  refine_memory llm w = (r, w1) ->
  todo w1 = todo w /\
  match r with
  | Ok _ => memory w1 = memory w \/ memory w1 = move_to_solution (memory w)
  | Raise e =>
      memory w1 = memory w /\
      exists c, e = OracleError c /\ refinement_call c = true
  end.
Proof.
  unfold refine_memory, bind, gets, ask, modify, ret, raise.
  destruct (last_talk (memory w)) as [lt|]; [|intros [= <- <-]; auto].
  destruct (String.eqb _ _); [intros [= <- <-]; auto|].
  cbn. destruct (get_context_title llm _ _) as [summary|]; cbn;
    [|intros [= <- <-]; eauto 6].
  destruct (truthy lt); cbn; [|intros [= <- <-]; auto].
  destruct (is_related llm lt summary) as [[|]|]; cbn.
  - destruct (rewrite llm lt _); intros [= <- <-]; cbn; eauto 6.
  - intros [= <- <-]; auto.
  - intros [= <- <-]; eauto 6.
Qed.

(** A checkpoint of a memory with a history is a change of that memory. *)
Lemma move_to_solution_changes (m : BrainMemory) :
  history_text m <> EmptyString -> move_to_solution m <> m.
Proof.
  intros Hh Heq. apply Hh. rewrite <- Heq.
  apply history_text_move_to_solution.
Qed.

(** Whatever the memory is made of: when the last talk is found unrelated
    to a history and the classification request then fails, [think] is left
    by the exception with a memory that is not the one it started with. *)
Lemma think_failure_after_checkpoint w lt summary :
  last_talk (memory w) = Some lt ->
  truthy lt = true ->
  history_text (memory w) <> EmptyString ->
  get_context_title llm (history_text (memory w)) 20 = Some summary ->
  is_related llm lt summary = Some false ->
  aask llm (build_prompt skills lt) [] = None ->
  exists e w',
    think llm skills resolver w = (Raise e, w') /\ memory w' <> memory w.
Proof.
  intros Hlt Ht Hh Hsum Hrel Hask.
  unfold think, bind.
  rewrite (refine_memory_unrelated w lt summary Hlt Ht Hh Hsum Hrel), Ht. cbn.
  unfold ask, bind, modify, raise. cbn. rewrite Hask.
  eexists _, _. split; [reflexivity|]. cbn.
  now apply move_to_solution_changes.
Qed.


(** C1, as the code has it.  Refinement does not look at the
    classification: once it has returned a sentence, every response of the
    oracle goes to [_plan].  There the tag Skill selects the skill handler
    and every other tag the talk handler; a response parsed as Solution
    ends in a talk action on its payload. *)
Theorem think_routes_every_response w w1 lt rsp :
  refine_memory llm w = (Ok (Some lt), w1) ->
  truthy lt = true ->
  aask llm (build_prompt skills lt) [] = Some rsp ->
  let w2 := classified skills lt rsp w1 in
  think llm skills resolver w = _plan skills resolver rsp lt w2 /\
  ((extract_info rsp).1 = MessageType.value MessageType.Skill ->
   think llm skills resolver w
   = skill_handler skills resolver (extract_info rsp).2 lt w2) /\
  ((extract_info rsp).1 <> MessageType.value MessageType.Skill ->
   think llm skills resolver w = talk_handler (extract_info rsp).2 lt w2) /\
  ((extract_info rsp).1 = MessageType.value MessageType.Solution ->
   think llm skills resolver w
   = (Ok true, talk_todo (extract_info rsp).2 lt w2)).
Proof.
  intros Hr Ht Hrsp w2.
  assert (Hthink : think llm skills resolver w
                   = _plan skills resolver rsp lt w2).
  { unfold think, bind. rewrite Hr, Ht. cbn.
    unfold ask, bind, modify. cbn. rewrite Hrsp. reflexivity. }
  assert (Htalk : (extract_info rsp).1 <> MessageType.value MessageType.Skill ->
    think llm skills resolver w = talk_handler (extract_info rsp).2 lt w2).
  { intros Hs. rewrite Hthink. unfold _plan.
    destruct (extract_info rsp) as [skill text]. cbn in *.
    now rewrite (handlers_get_other skills resolver _ Hs). }
  split; [exact Hthink|]. split; [|split; [exact Htalk|]].
  - intros Hs. rewrite Hthink. unfold _plan.
    destruct (extract_info rsp) as [skill text]. cbn in *. subst skill.
    now rewrite handlers_get_Skill.
  - intros Hs. rewrite Htalk; [apply talk_handler_run|].
    rewrite Hs. discriminate.
Qed.

End Cycle.

(** ** Execution and snapshots *)

Section Execute.

Context {BrainMemory Snapshot : Type} `{!BrainMemoryOps BrainMemory Snapshot}.

Variable Action_run : Action -> result (option RunResult).

Abbreviation W := (World BrainMemory Snapshot).

Implicit Types (w : W).

(** C8, as the code has it.  When the pending action returns nothing, or
    the empty text, [act] returns [None] and the world is as it was.  A
    text that is not empty is added to memory as an answer and returned as
    an output; an output object is returned as it is and its content added
    to memory as an answer. *)
Theorem act_result w action result :
  todo w = Some action ->
  Action_run action = Ok result ->
  (result = None \/ result = Some (RStr EmptyString) ->
   act Action_run w = (Ok None, w)) /\
  (forall s, result = Some (RStr s) -> s <> EmptyString ->
   act Action_run w
   = (Ok (Some {| output_content := s; output_instruct_content := None |}),
      set_memory (add_answer (answer_of_str s) (memory w)) w)) /\
  (forall o, result = Some (ROutput o) ->
   act Action_run w
   = (Ok (Some o),
      set_memory (add_answer (answer_of_output action o) (memory w)) w)).
Proof.
  intros Htodo Hrun.
  assert (Hact : act Action_run w
    = (if not_result result then ret None
       else match result with
            | None => ret None
            | Some (RStr s) =>
                bind (modify (fun w =>
                        set_memory (add_answer (answer_of_str s) (memory w)) w))
                     (fun _ => ret (Some {| output_content := s;
                                            output_instruct_content := None |}))
            | Some (ROutput o) =>
                bind (modify (fun w =>
                        set_memory
                          (add_answer (answer_of_output action o) (memory w)) w))
                     (fun _ => ret (Some o))
            end) w).
  { unfold act, bind, gets, lift. rewrite Htodo, Hrun. reflexivity. }
  rewrite Hact. split; [|split].
  - intros [->| ->]; reflexivity.
  - intros s -> Hs. destruct s; [congruence|reflexivity].
  - intros o ->. reflexivity.
Qed.


End Execute.

(** ** The prompt of [think] *)

Lemma append_assoc (a b c : string) : (a +:+ b) +:+ c = a +:+ b +:+ c.
Proof.
  induction a as [|x a IH]; [reflexivity|].
  change ((String x a +:+ b) +:+ c) with (String x ((a +:+ b) +:+ c)).
  now rewrite IH.
Qed.

Lemma append_nil_r (a : string) : a +:+ EmptyString = a.
Proof.
  induction a as [|x a IH]; [reflexivity|].
  change (String x a +:+ EmptyString) with (String x (a +:+ EmptyString)).
  now rewrite IH.
Qed.

Lemma fold_left_join {A : Type} (f : A -> string) (l : list A) (p : string) :
  fold_left (fun p x => p +:+ f x) l p = p +:+ join (map f l).
Proof.
  revert p. induction l as [|x l IH]; intros p; simpl.
  - now rewrite append_nil_r.
  - now rewrite IH, append_assoc.
Qed.

Lemma join_app (l1 l2 : list string) : join (l1 ++ l2) = join l1 +:+ join l2.
Proof.
  induction l1 as [|x l1 IH]; simpl; [reflexivity|].
  now rewrite IH, append_assoc.
Qed.

Lemma occurs_middle (pre m post : string) : occurs m (pre +:+ m +:+ post).
Proof. now exists pre, post. Qed.

Lemma occurs_append_l (m a b : string) : occurs m a -> occurs m (a +:+ b).
Proof.
  intros (pre & post & ->). exists pre, (post +:+ b).
  now rewrite !append_assoc.
Qed.

Lemma occurs_append_r (m a b : string) : occurs m b -> occurs m (a +:+ b).
Proof.
  intros (pre & post & ->). exists (a +:+ pre), post.
  now rewrite !append_assoc.
Qed.

Lemma occurs_join (x : string) (l : list string) : In x l -> occurs x (join l).
Proof.
  intros Hin. destruct (in_split _ _ Hin) as (l1 & l2 & ->).
  rewrite join_app. simpl. apply occurs_middle.
Qed.

Lemma build_prompt_eq (skills : SkillLoader) (lt : string) :
  build_prompt skills lt
  = prompt_header lt +:+ join (map skill_line (get_skill_list skills))
    +:+ prompt_footer.
Proof.
  unfold build_prompt, prompt_header, prompt_footer.
  rewrite fold_left_join. now rewrite !append_assoc.
Qed.

(** X1.  The prompt is the line with the sentence, then one line for each
    entry of the catalog in the order of the catalog, then the three fixed
    lines; a catalog made of two parts gives the lines of the first part
    followed by the lines of the second. *)
Theorem build_prompt_layout (skills : SkillLoader) (lt : string) :
  build_prompt skills lt
  = prompt_header lt +:+ join (map skill_line (get_skill_list skills))
    +:+ prompt_footer /\
  forall l1 l2 get,
    build_prompt {| get_skill_list := l1 ++ l2; get_skill := get |} lt
    = prompt_header lt +:+ join (map skill_line l1)
      +:+ join (map skill_line l2) +:+ prompt_footer.
Proof.
  split; [apply build_prompt_eq|].
  intros l1 l2 get. rewrite build_prompt_eq. simpl.
  now rewrite map_app, join_app, !append_assoc.
Qed.

(** X2.  The sentence under classification stands in the prompt, and so
    does the line of every entry of the catalog, with its description and
    its name. *)
Theorem build_prompt_offers (skills : SkillLoader) (lt : string) :
  occurs lt (build_prompt skills lt) /\
  forall desc name, In (desc, name) (get_skill_list skills) ->
    occurs ("If want you to do " +:+ desc +:+ ", return `[SKILL]: " +:+ name
            +:+ "` brief and clear.")
      (build_prompt skills lt).
Proof.
  rewrite build_prompt_eq. split.
  - apply occurs_append_l. unfold prompt_header.
    exists ("Refer to this sentence:" +:+ nl +:+ " "), nl.
    now rewrite !append_assoc.
  - intros desc name Hin. apply occurs_append_r, occurs_append_l.
    assert (Hline : occurs
              ("If want you to do " +:+ desc +:+ ", return `[SKILL]: "
               +:+ name +:+ "` brief and clear.")
              (skill_line (desc, name))).
    { exists EmptyString, (" For instance: [SKILL]: text_to_image" +:+ nl).
      unfold skill_line.
      change (EmptyString +:+ ?x) with x. rewrite !append_assoc.
      reflexivity. }
    destruct Hline as (pre & post & Hline).
    pose proof (occurs_join (skill_line (desc, name))
                  (map skill_line (get_skill_list skills))
                  (in_map skill_line _ _ Hin)) as (pre' & post' & ->).
    rewrite Hline. exists (pre' +:+ pre), (post +:+ post').
    now rewrite !append_assoc.
Qed.

(** ** What one cycle sends, stores and leaves *)

Section Outcome.

Context {BrainMemory Snapshot : Type} `{!BrainMemoryOps BrainMemory Snapshot}.

Variable llm : LLM.
Variable skills : SkillLoader.
Variable resolver : Skill -> string -> option Args.

Abbreviation W := (World BrainMemory Snapshot).

Implicit Types (w : W) (text lt rsp skill : string).

(** Refinement writes no log and sends at most three requests, none of
    them a classification. *)
Lemma refine_memory_trace w r w1 :
  refine_memory llm w = (r, w1) ->
  logs w1 = logs w /\
  exists pre,
    calls w1 = calls w ++ pre /\
    forallb refinement_call pre = true /\ (length pre <= 3)%nat.
Proof.
  assert (Hnone : forall w0 : W,
    logs w0 = logs w0 /\
    exists pre, calls w0 = calls w0 ++ pre /\
      forallb refinement_call pre = true /\ (length pre <= 3)%nat).
  { intros w0. split; [reflexivity|]. exists []. rewrite app_nil_r.
    repeat split. simpl. lia. }
  unfold refine_memory, bind, gets, ask, modify, ret, raise.
  destruct (last_talk (memory w)) as [lt|]; [|intros [= <- <-]; apply Hnone].
  destruct (String.eqb _ _); [intros [= <- <-]; apply Hnone|].
  cbn. destruct (get_context_title llm _ _) as [summary|]; cbn.
  2: { intros [= <- <-]. split; [reflexivity|]. eexists.
       split; [reflexivity|]. split; [reflexivity|]. simpl. lia. }
  destruct (truthy lt); cbn.
  2: { intros [= <- <-]. split; [reflexivity|]. eexists.
       split; [reflexivity|]. split; [reflexivity|]. simpl. lia. }
  destruct (is_related llm lt summary) as [[|]|]; cbn.
  - destruct (rewrite llm lt _); intros [= <- <-]; cbn;
      (split; [reflexivity|]; eexists;
       split; [rewrite <- !app_assoc; reflexivity|];
       split; [reflexivity|]; simpl; lia).
  - intros [= <- <-]. split; [reflexivity|]. eexists.
    split; [cbn; rewrite <- !app_assoc; reflexivity|].
    split; [reflexivity|]. simpl. lia.
  - intros [= <- <-]. split; [reflexivity|]. eexists.
    split; [cbn; rewrite <- !app_assoc; reflexivity|].
    split; [reflexivity|]. simpl. lia.
Qed.

(** Refinement gives no sentence only when memory has no last talk. *)
Lemma refine_memory_None w w1 :
  refine_memory llm w = (Ok None, w1) -> last_talk (memory w) = None.
Proof.
  unfold refine_memory, bind, gets, ask, modify, ret, raise.
  destruct (last_talk (memory w)) as [lt|]; [|reflexivity].
  destruct (String.eqb _ _); [discriminate|].
  cbn. destruct (get_context_title llm _ _) as [summary|]; cbn;
    [|discriminate].
  destruct (truthy lt); cbn; [|discriminate].
  destruct (is_related llm lt summary) as [[|]|]; cbn; try discriminate.
  destruct (rewrite llm lt _); discriminate.
Qed.

(** [think] behind its refinement. *)
Lemma think_unfold w :
  think llm skills resolver w =
  match refine_memory llm w with
  | (Ok None, w1) => (Ok false, w1)
  | (Ok (Some lt), w1) =>
      if truthy lt then
        match aask llm (build_prompt skills lt) [] with
        | Some rsp => _plan skills resolver rsp lt (classified skills lt rsp w1)
        | None =>
            (Raise (OracleError (aask_call (build_prompt skills lt) [])),
             add_call (aask_call (build_prompt skills lt) [])
               (add_log (log_info (build_prompt skills lt)) w1))
        end
      else (Ok false, w1)
  | (Raise e, w1) => (Raise e, w1)
  end.
Proof.
  unfold think, bind. destruct (refine_memory llm w) as [[[lt|]|e] w1];
    try reflexivity.
  destruct (truthy lt); [|reflexivity]. cbn.
  unfold ask, bind, modify. cbn.
  destruct (aask llm _ _); reflexivity.
Qed.

(** Routing stores an action and touches neither memory nor the trace. *)
Lemma plan_stores rsp lt w :
  exists w' a,
    _plan skills resolver rsp lt w = (Ok true, w') /\
    memory w' = memory w /\ calls w' = calls w /\ todo w' = Some a.
Proof.
  unfold _plan. destruct (extract_info rsp) as [skill text].
  destruct (decide (skill = MessageType.value MessageType.Skill)) as [->|Hs].
  - rewrite handlers_get_Skill. unfold skill_handler.
    destruct (get_skill skills text) as [sk|].
    + destruct (resolver sk lt) as [args|]; cbn;
        (do 2 eexists; split; [reflexivity|]; cbn; now repeat split).
    + cbn. do 2 eexists; split; [reflexivity|]; cbn; now repeat split.
  - rewrite (handlers_get_other _ _ _ Hs), talk_handler_run.
    do 2 eexists; split; [reflexivity|]; cbn; now repeat split.
Qed.

Lemma classifications_after (l pre : list OracleCall) :
  forallb refinement_call pre = true ->
  classifications (l ++ pre) = classifications l.
Proof.
  intros Hall. unfold classifications. rewrite List.filter_app.
  assert (Hnil : List.filter (fun c => negb (refinement_call c)) pre = []).
  { induction pre as [|c pre IH]; [reflexivity|].
    simpl in *. apply andb_prop in Hall as [Hc Hall].
    now rewrite Hc, IH. }
  now rewrite Hnil, app_nil_r.
Qed.

(** X3.  When [think] returns true, a pending action is stored and one
    classification request was sent, the last request of the cycle, for a
    sentence that is not empty; before it come at most three requests of
    refinement. *)
Theorem think_true_pending w w' :
  think llm skills resolver w = (Ok true, w') ->
  exists a pre lt,
    todo w' = Some a /\
    truthy lt = true /\
    calls w' = calls w ++ pre ++ [aask_call (build_prompt skills lt) []] /\
    forallb refinement_call pre = true /\ (length pre <= 3)%nat.
Proof.
  rewrite think_unfold.
  destruct (refine_memory llm w) as [[[lt|]|e] w1] eqn:Hr; try discriminate.
  destruct (truthy lt) eqn:Ht; [|discriminate].
  destruct (aask llm _ _) as [rsp|]; [|discriminate].
  destruct (plan_stores rsp lt (classified skills lt rsp w1))
    as (w2 & a & -> & _ & Hcalls & Htodo).
  intros [= <-].
  destruct (refine_memory_trace _ _ _ Hr) as (_ & pre & Hpre & Hall & Hlen).
  exists a, pre, lt. repeat split; try assumption.
  rewrite Hcalls. cbn. rewrite Hpre. now rewrite <- app_assoc.
Qed.

(** X4.  When [think] returns false, refinement found no last talk or
    gave the empty text; the pending action and the log are as they were
    and no classification request was sent. *)
Theorem think_false_idle w w' :
  think llm skills resolver w = (Ok false, w') ->
  (refine_memory llm w = (Ok None, w') /\ last_talk (memory w) = None \/
   refine_memory llm w = (Ok (Some EmptyString), w')) /\
  todo w' = todo w /\
  logs w' = logs w /\
  classifications (calls w') = classifications (calls w).
Proof.
  rewrite think_unfold.
  destruct (refine_memory llm w) as [[[lt|]|e] w1] eqn:Hr; try discriminate.
  - destruct (truthy lt) eqn:Ht.
    + destruct (aask llm _ _) as [rsp|]; [|discriminate].
      destruct (plan_stores rsp lt (classified skills lt rsp w1))
        as (w2 & a & -> & _). discriminate.
    + intros [= <-]. destruct lt; [|discriminate].
      destruct (refine_memory_outcome _ _ _ _ Hr) as [Htodo _].
      destruct (refine_memory_trace _ _ _ Hr) as (Hlogs & pre & -> & Hall & _).
      split; [now right|]. repeat split; try assumption.
      now apply classifications_after.
  - intros [= <-].
    destruct (refine_memory_outcome _ _ _ _ Hr) as [Htodo _].
    destruct (refine_memory_trace _ _ _ Hr) as (Hlogs & pre & -> & Hall & _).
    split; [left; split; [reflexivity|exact (refine_memory_None _ _ Hr)]|].
    repeat split; try assumption.
    now apply classifications_after.
Qed.

(** Without a last talk or without a history, refinement is a read. *)
Lemma refine_memory_read w :
  last_talk (memory w) = None \/ history_text (memory w) = EmptyString ->
  refine_memory llm w = (Ok (last_talk (memory w)), w).
Proof.
  intros Hq. unfold refine_memory, bind, gets.
  destruct (last_talk (memory w)) as [lt|]; [|reflexivity].
  destruct Hq as [Hq|Hq]; [discriminate|]. now rewrite Hq.
Qed.

(** X5.  A last talk that is the empty text, over a history: refinement
    sends the summary request only, checkpoints memory without asking
    whether the talk is related, and returns the empty text; [think] then
    returns false, in a world whose memory is checkpointed. *)
Theorem think_empty_last_talk w summary :
  last_talk (memory w) = Some EmptyString ->
  history_text (memory w) <> EmptyString ->
  get_context_title llm (history_text (memory w)) 20 = Some summary ->
  let w1 :=
    set_memory (move_to_solution (memory w))
      (add_call (get_context_title_call (history_text (memory w)) 20) w) in
  refine_memory llm w = (Ok (Some EmptyString), w1) /\
  think llm skills resolver w = (Ok false, w1) /\
  calls w1 = calls w ++ [get_context_title_call (history_text (memory w)) 20].
Proof.
  intros Hlt Hh Hsum w1.
  assert (Hr : refine_memory llm w = (Ok (Some EmptyString), w1)).
  { unfold refine_memory, bind, gets, ask, modify, ret.
    rewrite Hlt, (eqb_empty_false _ Hh). cbn. now rewrite Hsum. }
  split; [exact Hr|]. split; [|reflexivity].
  now rewrite think_unfold, Hr.
Qed.

(** X6.  When the oracle rewrites the last talk to the empty text,
    [think] returns false after the three requests of refinement: nothing
    is classified, nothing is stored, memory is as it was. *)
Theorem think_empty_rewrite w lt summary :
  last_talk (memory w) = Some lt ->
  truthy lt = true ->
  history_text (memory w) <> EmptyString ->
  get_context_title llm (history_text (memory w)) 20 = Some summary ->
  is_related llm lt summary = Some true ->
  rewrite llm lt (history_text (memory w)) = Some EmptyString ->
  think llm skills resolver w
  = (Ok false,
     add_call (rewrite_call lt (history_text (memory w)))
       (add_call (is_related_call lt summary)
          (add_call (get_context_title_call (history_text (memory w)) 20) w))).
Proof.
  intros Hlt Ht Hh Hsum Hrel Hrw.
  rewrite think_unfold.
  now rewrite (refine_memory_related llm w lt summary EmptyString
                 Hlt Ht Hh Hsum Hrel Hrw).
Qed.

(** X7.  However [think] ends, memory is the one it started with or its
    checkpoint, never anything else; it is the one it started with when
    there was no last talk or no history. *)
Theorem think_memory_choice w r w' :
  think llm skills resolver w = (r, w') ->
  (memory w' = memory w \/ memory w' = move_to_solution (memory w)) /\
  (last_talk (memory w) = None \/ history_text (memory w) = EmptyString ->
   memory w' = memory w).
Proof.
  rewrite think_unfold. intros Hthink.
  assert (Hkeep : forall ro w1, refine_memory llm w = (ro, w1) ->
    memory w' = memory w1 ->
    (memory w1 = memory w \/ memory w1 = move_to_solution (memory w)) ->
    (memory w' = memory w \/ memory w' = move_to_solution (memory w)) /\
    (last_talk (memory w) = None \/ history_text (memory w) = EmptyString ->
     memory w' = memory w)).
  { intros ro w1 Hr Hw' Hm. rewrite Hw'. split; [exact Hm|].
    intros Hq. pose proof (refine_memory_read w Hq) as Hread.
    rewrite Hr in Hread. now injection Hread as _ ->. }
  destruct (refine_memory llm w) as [[[lt|]|e] w1] eqn:Hr.
  - pose proof (refine_memory_outcome _ _ _ _ Hr) as [_ Hm].
    destruct (truthy lt).
    + destruct (aask llm _ _) as [rsp|].
      * destruct (plan_stores rsp lt (classified skills lt rsp w1))
          as (w2 & a & Hplan & Hmem & _).
        rewrite Hplan in Hthink. injection Hthink as <- <-.
        now apply (Hkeep _ w1 eq_refl).
      * injection Hthink as <- <-. now apply (Hkeep _ w1 eq_refl).
    + injection Hthink as <- <-. now apply (Hkeep _ w1 eq_refl).
  - pose proof (refine_memory_outcome _ _ _ _ Hr) as [_ Hm].
    injection Hthink as <- <-. now apply (Hkeep _ w1 eq_refl).
  - pose proof (refine_memory_outcome _ _ _ _ Hr) as [_ [Hm _]].
    injection Hthink as <- <-. apply (Hkeep _ w1 eq_refl); [reflexivity|now left].
Qed.

(** X10.  Routing always stores a pending action and leaves memory as it
    was.  The action is a skill action only when the tag is Skill, the
    payload names a skill of the catalog and the resolver found arguments
    for it in the last talk; the action then carries that skill, those
    arguments and the skill's own name and description. *)
Theorem plan_skill_action rsp lt w :
  (exists a, todo (_plan skills resolver rsp lt w).2 = Some a) /\
  memory (_plan skills resolver rsp lt w).2 = memory w /\
  forall sk args n d,
    todo (_plan skills resolver rsp lt w).2 = Some (SkillAction sk args n d) ->
    (extract_info rsp).1 = MessageType.value MessageType.Skill /\
    get_skill skills (extract_info rsp).2 = Some sk /\
    resolver sk lt = Some args /\
    n = name sk /\ d = description sk.
Proof.
  destruct (plan_stores rsp lt w) as (w' & a & Hplan & Hmem & _ & Htodo).
  split; [exists a; now rewrite Hplan|]. split; [now rewrite Hplan|].
  intros sk args n d. unfold _plan.
  destruct (extract_info rsp) as [skill text]. cbn.
  destruct (decide (skill = MessageType.value MessageType.Skill)) as [->|Hs].
  - rewrite handlers_get_Skill. unfold skill_handler.
    destruct (get_skill skills text) as [sk'|]; [|discriminate].
    destruct (resolver sk' lt) as [args'|] eqn:Hres; cbn; [|discriminate].
    intros [= <- <- <- <-]. now repeat split.
  - rewrite (handlers_get_other _ _ _ Hs), talk_handler_run. discriminate.
Qed.

(** X17.  A whole cycle on a last talk unrelated to the history, with a
    response whose tag is not Skill: the pending action is a talk action on
    the payload, its last talk is the sentence as the user wrote it, and its
    knowledge is read from the memory refinement has checkpointed. *)
Theorem think_unrelated_talk w lt summary rsp :
  last_talk (memory w) = Some lt ->
  truthy lt = true ->
  history_text (memory w) <> EmptyString ->
  get_context_title llm (history_text (memory w)) 20 = Some summary ->
  is_related llm lt summary = Some false ->
  aask llm (build_prompt skills lt) [] = Some rsp ->
  (extract_info rsp).1 <> MessageType.value MessageType.Skill ->
  (think llm skills resolver w).1 = Ok true /\
  todo (think llm skills resolver w).2
  = Some (TalkAction (extract_info rsp).2
            (get_knowledge (move_to_solution (memory w))) lt) /\
  memory (think llm skills resolver w).2 = move_to_solution (memory w).
Proof.
  intros Hlt Ht Hh Hsum Hrel Hask Htag.
  rewrite think_unfold.
  rewrite (refine_memory_unrelated llm w lt summary Hlt Ht Hh Hsum Hrel).
  rewrite Ht, Hask. unfold _plan.
  destruct (extract_info rsp) as [skill text]. cbn in *.
  rewrite (handlers_get_other _ _ _ Htag), talk_handler_run.
  now repeat split.
Qed.

(** X18.  A whole cycle on a last talk related to the history, with a
    response tagged Skill: what the router calls the last talk is the
    rewritten sentence.  The resolver is asked about the rewritten
    sentence, and when the skill is unknown or has no arguments the talk
    action is on the rewritten sentence, not on what the user wrote. *)
Theorem think_related_skill w lt summary r rsp :
  last_talk (memory w) = Some lt ->
  truthy lt = true ->
  history_text (memory w) <> EmptyString ->
  get_context_title llm (history_text (memory w)) 20 = Some summary ->
  is_related llm lt summary = Some true ->
  rewrite llm lt (history_text (memory w)) = Some r ->
  truthy r = true ->
  aask llm (build_prompt skills r) [] = Some rsp ->
  (extract_info rsp).1 = MessageType.value MessageType.Skill ->
  (think llm skills resolver w).1 = Ok true /\
  memory (think llm skills resolver w).2 = memory w /\
  (get_skill skills (extract_info rsp).2 = None \/
   (exists sk, get_skill skills (extract_info rsp).2 = Some sk /\
               resolver sk r = None) ->
   todo (think llm skills resolver w).2
   = Some (TalkAction r (get_knowledge (memory w)) r)) /\
  (forall sk args,
     get_skill skills (extract_info rsp).2 = Some sk ->
     resolver sk r = Some args ->
     todo (think llm skills resolver w).2
     = Some (SkillAction sk args (name sk) (description sk))).
Proof.
  intros Hlt Ht Hh Hsum Hrel Hrw Hr Hask Htag.
  rewrite think_unfold.
  rewrite (refine_memory_related llm w lt summary r Hlt Ht Hh Hsum Hrel Hrw).
  rewrite Hr, Hask. unfold _plan.
  destruct (extract_info rsp) as [skill text]. cbn in *. subst skill.
  rewrite handlers_get_Skill. unfold skill_handler.
  destruct (get_skill skills text) as [sk|].
  - destruct (resolver sk r) as [args|] eqn:Hres; cbn.
    + split; [reflexivity|]. split; [reflexivity|]. split.
      * intros [Hn|(sk' & [= <-] & Hn)]; [discriminate|].
        rewrite Hres in Hn. discriminate.
      * intros sk' args' [= <-]. rewrite Hres. now intros [= <-].
    + split; [reflexivity|]. split; [reflexivity|]. split; [reflexivity|].
      intros sk' args' [= <-]. rewrite Hres. discriminate.
  - cbn. split; [reflexivity|]. split; [reflexivity|]. split; [reflexivity|].
    discriminate.
Qed.

(** A sentence refinement returns is the last talk of memory or the
    oracle's rewrite of it; it is the last talk itself when the history is
    empty and when the oracle finds the talk unrelated. *)
Lemma refine_memory_Some w lt w1 :
  refine_memory llm w = (Ok (Some lt), w1) ->
  exists o,
    last_talk (memory w) = Some o /\
    (lt = o \/
     exists summary,
       get_context_title llm (history_text (memory w)) 20 = Some summary /\
       is_related llm o summary = Some true /\
       rewrite llm o (history_text (memory w)) = Some lt) /\
    (history_text (memory w) = EmptyString -> lt = o) /\
    (forall summary,
       get_context_title llm (history_text (memory w)) 20 = Some summary ->
       is_related llm o summary = Some false -> lt = o).
Proof.
  unfold refine_memory, bind, gets, ask, modify, ret, raise.
  destruct (last_talk (memory w)) as [o|]; [|discriminate].
  destruct (String.eqb_spec (history_text (memory w)) EmptyString) as [Hh|Hh].
  { intros [= <- <-]. exists o. repeat split; auto. }
  cbn. destruct (get_context_title llm _ _) as [summary|]; cbn;
    [|discriminate].
  destruct (truthy o); cbn.
  2: { intros [= <- <-]. exists o. repeat split; auto. }
  destruct (is_related llm o summary) as [[|]|] eqn:Hrel; cbn.
  - destruct (rewrite llm o _) as [r|] eqn:Hrw; [|discriminate].
    intros [= <- <-]. exists o. split; [reflexivity|]. split; [|split].
    + right. now exists summary.
    + intros Hempty. now destruct Hh.
    + intros summary' [= <-]. rewrite Hrel. discriminate.
  - intros [= <- <-]. exists o. repeat split; auto.
  - discriminate.
Qed.

(** C5, as the code has it.  In a cycle whose response is tagged Skill,
    when the payload names no skill of the catalog or the resolver finds no
    arguments, [think] returns true and the pending action is the talk
    action on the refined sentence, the text [think] hands to the router as
    last talk, and not on the payload: the action the talk handler builds
    for that sentence, and the one [_plan] builds for a response parsed as
    Talk with that sentence as payload.  The refined sentence is the last
    talk of memory when the history is empty or the talk unrelated, and the
    oracle's rewrite of it otherwise.  The skill handler and [_plan] return
    true in every branch. *)
Theorem think_skill_fallback w w1 lt rsp :
  refine_memory llm w = (Ok (Some lt), w1) ->
  truthy lt = true ->
  aask llm (build_prompt skills lt) [] = Some rsp ->
  (extract_info rsp).1 = MessageType.value MessageType.Skill ->
  get_skill skills (extract_info rsp).2 = None \/
  (exists sk, get_skill skills (extract_info rsp).2 = Some sk /\
              resolver sk lt = None) ->
  let w2 := classified skills lt rsp w1 in
  (think llm skills resolver w).1 = Ok true /\
  todo (think llm skills resolver w).2
  = Some (TalkAction lt (get_knowledge (memory w1)) lt) /\
  todo (think llm skills resolver w).2 = todo (talk_handler lt lt w2).2 /\
  (forall rsp',
     extract_info rsp' = (MessageType.value MessageType.Talk, lt) ->
     todo (_plan skills resolver rsp' lt w2).2
     = todo (think llm skills resolver w).2) /\
  (exists o,
     last_talk (memory w) = Some o /\
     (lt = o \/
      exists summary,
        get_context_title llm (history_text (memory w)) 20 = Some summary /\
        is_related llm o summary = Some true /\
        rewrite llm o (history_text (memory w)) = Some lt) /\
     (history_text (memory w) = EmptyString -> lt = o) /\
     (forall summary,
        get_context_title llm (history_text (memory w)) 20 = Some summary ->
        is_related llm o summary = Some false -> lt = o)) /\
  (forall text lt' w0, (skill_handler skills resolver text lt' w0).1 = Ok true) /\
  (forall rsp' lt' w0, (_plan skills resolver rsp' lt' w0).1 = Ok true).
Proof.
  intros Hr Ht Hask Htag Hfall w2.
  assert (Hthink : think llm skills resolver w
                   = skill_handler skills resolver (extract_info rsp).2 lt w2).
  { rewrite think_unfold, Hr, Ht, Hask. unfold _plan.
    destruct (extract_info rsp) as [skill text]. cbn in *. subst skill.
    now rewrite handlers_get_Skill. }
  assert (Htodo : todo (think llm skills resolver w).2
                  = Some (TalkAction lt (get_knowledge (memory w1)) lt)).
  { rewrite Hthink. unfold skill_handler.
    destruct Hfall as [Hn|(sk & Hsk & Hn)].
    - now rewrite Hn.
    - now rewrite Hsk, Hn. }
  split.
  { rewrite Hthink.
    destruct (skill_handler_run skills resolver (extract_info rsp).2 lt w2)
      as (w3 & -> & _). reflexivity. }
  split; [exact Htodo|]. split; [now rewrite Htodo, talk_handler_run|].
  split.
  { intros rsp' Hrsp'. rewrite Htodo. unfold _plan. rewrite Hrsp'.
    rewrite handlers_get_other by discriminate.
    now rewrite talk_handler_run. }
  split; [exact (refine_memory_Some w lt w1 Hr)|].
  split.
  - intros text lt' w0.
    destruct (skill_handler_run skills resolver text lt' w0) as (w3 & -> & _).
    reflexivity.
  - intros rsp' lt' w0.
    destruct (plan_run skills resolver rsp' lt' w0) as (w3 & -> & _).
    reflexivity.
Qed.

End Outcome.

(** ** Execution, snapshots and construction *)

Section Executor.

Context {BrainMemory Snapshot : Type} `{!BrainMemoryOps BrainMemory Snapshot}.

Variable Action_run : Action -> result (option RunResult).

Abbreviation W := (World BrainMemory Snapshot).

Implicit Types (w : W).

(** [act] by what it finds and what [run] hands back. *)
Lemma act_unfold w :
  act Action_run w =
  match todo w with
  | None => (Raise (AttributeError "run"), w)
  | Some action =>
      match Action_run action with
      | Raise e => (Raise e, w)
      | Ok None => (Ok None, w)
      | Ok (Some (RStr s)) =>
          if truthy s
          then (Ok (Some {| output_content := s;
                            output_instruct_content := None |}),
                set_memory (add_answer (answer_of_str s) (memory w)) w)
          else (Ok None, w)
      | Ok (Some (ROutput o)) =>
          (Ok (Some o),
           set_memory (add_answer (answer_of_output action o) (memory w)) w)
      end
  end.
Proof.
  unfold act, bind, gets, lift.
  destruct (todo w) as [action|]; [|reflexivity].
  destruct (Action_run action) as [[[s|o]|]|e]; try reflexivity.
  destruct s; reflexivity.
Qed.

(** X8.  When [act] raises, memory and the pending action are as they
    were, and the exception is the [AttributeError] of a role without a
    pending action or the one its action raised. *)
Theorem act_failure w e w' :
  act Action_run w = (Raise e, w') ->
  memory w' = memory w /\ todo w' = todo w /\
  (todo w = None /\ e = AttributeError "run" \/
   exists action, todo w = Some action /\ Action_run action = Raise e).
Proof.
  rewrite act_unfold. destruct (todo w) as [action|] eqn:Htodo.
  - destruct (Action_run action) as [[[s|o]|]|e'] eqn:Hrun; try discriminate.
    + destruct (truthy s); discriminate.
    + intros [= <- <-]. split; [reflexivity|]. split; [exact Htodo|].
      right. now exists action.
  - intros [= <- <-]. split; [reflexivity|]. split; [exact Htodo|]. now left.
Qed.

(** X9.  When [act] returns, the pending action is still there.  It
    returns [None] with memory as it was, or an output with a memory that
    has one more answer, whose content and instruct content are those of
    the output. *)
Theorem act_success w out w' :
  act Action_run w = (Ok out, w') ->
  todo w' = todo w /\
  match out with
  | None => memory w' = memory w
  | Some o =>
      exists msg,
        memory w' = add_answer msg (memory w) /\
        content msg = output_content o /\
        instruct_content msg = output_instruct_content o
  end.
Proof.
  rewrite act_unfold. destruct (todo w) as [action|] eqn:Htodo;
    [|discriminate].
  destruct (Action_run action) as [[[s|o]|]|e']; try discriminate.
  - destruct (truthy s); intros [= <- <-]; (split; [exact Htodo|]).
    + now exists (answer_of_str s).
    + reflexivity.
  - intros [= <- <-]. split; [exact Htodo|].
    now exists (answer_of_output action o).
  - intros [= <- <-]. split; [exact Htodo|]. reflexivity.
Qed.

(** X11.  [act] does not use up the pending action: run a second time it
    returns the same output and adds the same answer once more. *)
Theorem act_twice w o w' :
  act Action_run w = (Ok (Some o), w') ->
  exists msg,
    memory w' = add_answer msg (memory w) /\
    (act Action_run w').1 = Ok (Some o) /\
    memory (act Action_run w').2 = add_answer msg (add_answer msg (memory w)).
Proof.
  rewrite !act_unfold. destruct (todo w) as [action|] eqn:Htodo;
    [|discriminate].
  destruct (Action_run action) as [[[s|o']|]|e'] eqn:Hrun; try discriminate.
  - destruct (truthy s) eqn:Hs; [|discriminate]. intros [= <- <-].
    exists (answer_of_str s). split; [reflexivity|].
    cbn. rewrite Htodo, Hrun, Hs. now split.
  - intros [= <- <-].
    exists (answer_of_output action o'). split; [reflexivity|].
    cbn. rewrite Htodo, Hrun. now split.
Qed.


End Executor.

Section Constructor.

Context {BrainMemory Snapshot : Type} `{!BrainMemoryOps BrainMemory Snapshot}.

Variable BrainMemory_default : BrainMemory.
Variable Snapshot_bool : Snapshot -> bool.
Variable Path : string -> string.
Variable SkillLoader_init : option string -> result SkillLoader.

Abbreviation W := (World BrainMemory Snapshot).


(** X14.  The catalog is the one the loader gives for the path object made
    of the [SKILL_PATH] option, that is, for the normal text of that path
    and not for the option's text as it stands; a path that is missing or
    the empty text is no path at all, and the path object is not even
    made. *)
Theorem Assistant_init_skills (options : Options Snapshot) r :
  Assistant_init BrainMemory_default Snapshot_bool Path SkillLoader_init
    options
  = Ok r ->
  (forall path, SKILL_PATH options = Some path -> truthy path = true ->
   SkillLoader_init (Some (Path path)) = Ok r.2) /\
  (SKILL_PATH options = None \/ SKILL_PATH options = Some EmptyString ->
   SkillLoader_init None = Ok r.2).
Proof.
  unfold Assistant_init. intros Hinit.
  destruct (match BRAIN_MEMORY options with
            | Some jsn => if Snapshot_bool jsn then BrainMemory_init jsn
                          else Ok BrainMemory_default
            | None => Ok BrainMemory_default
            end) as [m|e]; [|discriminate].
  split.
  - intros path Hp Ht. rewrite Hp, Ht in Hinit.
    destruct (SkillLoader_init (Some (Path path))); [|discriminate].
    now injection Hinit as <-.
  - intros [Hp|Hp]; rewrite Hp in Hinit; cbn in Hinit;
      (destruct (SkillLoader_init None); [|discriminate];
       now injection Hinit as <-).
Qed.

End Constructor.

(** ** The loop of [main] *)

Section MainLoop.

Context {BrainMemory Snapshot : Type} `{!BrainMemoryOps BrainMemory Snapshot}.

Variable llm : LLM.
Variable skills : SkillLoader.
Variable resolver : Skill -> string -> option Args.
Variable Action_run : Action -> result (option RunResult).
Variable str : option ActionOutput -> string.

Abbreviation W := (World BrainMemory Snapshot).
Abbreviation loop := (main_loop llm skills resolver Action_run str).

Implicit Types (w : W).

(** An exception that leaves [think] is a failed request. *)
Lemma think_raises w e w' :
  think llm skills resolver w = (Raise e, w') -> exists c, e = OracleError c.
Proof.
  rewrite think_unfold.
  destruct (refine_memory llm w) as [[[lt|]|e1] w1] eqn:Hr; try discriminate.
  - destruct (truthy lt); [|discriminate].
    destruct (aask llm _ _) as [rsp|].
    + destruct (plan_stores skills resolver rsp lt (classified skills lt rsp w1))
        as (w2 & a & -> & _). discriminate.
    + intros [= <- <-]. eauto.
  - intros [= <- <-].
    destruct (refine_memory_outcome _ _ _ _ Hr) as (_ & _ & c & -> & _).
    eauto.
Qed.

(** A [think] that returns true has stored an action. *)
Lemma think_true_todo w w' :
  think llm skills resolver w = (Ok true, w') -> exists a, todo w' = Some a.
Proof.
  rewrite think_unfold.
  destruct (refine_memory llm w) as [[[lt|]|e1] w1]; try discriminate.
  destruct (truthy lt); [|discriminate].
  destruct (aask llm _ _) as [rsp|]; [|discriminate].
  destruct (plan_stores skills resolver rsp lt (classified skills lt rsp w1))
    as (w2 & a & -> & _ & _ & Htodo).
  intros [= <-]. eauto.
Qed.

(** One turn of the loop. *)
Lemma main_loop_unfold (inputs : list string) w :
  loop inputs w =
  match think llm skills resolver w with
  | (Ok false, w1) => (Done tt, w1)
  | (Ok true, w1) =>
      match act Action_run w1 with
      | (Ok msg, w2) =>
          let w3 := add_log (log_info "Enter prompt")
                      (add_log (log_info (str msg)) w2) in
          match inputs with
          | [] => (Failed EOFError, w3)
          | talk_ :: inputs' => loop inputs' (talk talk_ w3).2
          end
      | (Raise e, w2) => (Failed (RoleError e), w2)
      end
  | (Raise e, w1) => (Failed (RoleError e), w1)
  end.
Proof.
  destruct inputs as [|talk_ inputs']; simpl; unfold main_bind, role;
    destruct (think llm skills resolver w) as [[[|]|e] w1]; try reflexivity;
    cbv beta iota delta [negb];
    destruct (act Action_run w1) as [[msg|e] w2]; reflexivity.
Qed.

(** X15.  Whatever the user types, the loop of [main] runs [act] only on
    a role that has a pending action.  What leaves the loop is the
    [EOFError] of [input] at the end of the standard input, a failed
    oracle request, or the exception of an action; the [AttributeError] of
    an empty [todo] never does.  [EOFError] comes only when every line has
    been read, and a loop that breaks raises nothing. *)
Theorem main_loop_failure (inputs : list string) w e w' :
  main_loop llm skills resolver Action_run str inputs w = (Failed e, w') ->
  e = EOFError \/
  (exists c, e = RoleError (OracleError c)) \/
  (exists action e', e = RoleError e' /\ Action_run action = Raise e').
Proof.
  revert w. induction inputs as [|talk_ inputs' IH]; intros w;
    rewrite main_loop_unfold;
    destruct (think llm skills resolver w) as [[[|]|e1] w1] eqn:Hthink;
    try discriminate.
  - destruct (think_true_todo _ _ Hthink) as (a & Htodo).
    rewrite act_unfold, Htodo.
    destruct (Action_run a) as [[[s|o]|]|e2] eqn:Hrun.
    + destruct (truthy s); intros [= <- <-]; now left.
    + intros [= <- <-]. now left.
    + intros [= <- <-]. now left.
    + intros [= <- <-]. right. right. now exists a, e2.
  - intros [= <- <-]. right. left.
    destruct (think_raises _ _ _ Hthink) as (c & ->). now exists c.
  - destruct (think_true_todo _ _ Hthink) as (a & Htodo).
    rewrite act_unfold, Htodo.
    destruct (Action_run a) as [[[s|o]|]|e2] eqn:Hrun.
    + destruct (truthy s); apply IH.
    + apply IH.
    + apply IH.
    + intros [= <- <-]. right. right. now exists a, e2.
  - intros [= <- <-]. right. left.
    destruct (think_raises _ _ _ Hthink) as (c & ->). now exists c.
Qed.

(** X16.  A last talk that is the empty text ends the loop at once,
    whatever the user would type next: the loop breaks without running an
    action, with the pending action as it was, or it is left by the failure
    of the summary request. *)
Theorem main_loop_empty_talk (inputs : list string) w :
  last_talk (memory w) = Some EmptyString ->
  (exists w1,
     main_loop llm skills resolver Action_run str inputs w
     = (Done tt, w1) /\ todo w1 = todo w) \/
  (exists w1,
     main_loop llm skills resolver Action_run str inputs w
     = (Failed (RoleError
                  (OracleError
                     (get_context_title_call (history_text (memory w)) 20))),
        w1)).
Proof.
  intros Hlt. rewrite main_loop_unfold, think_unfold.
  unfold refine_memory, bind, gets, ask, modify, ret, raise. rewrite Hlt.
  destruct (String.eqb _ _); cbn; [left; now eexists|].
  destruct (get_context_title llm _ _); cbn; [left|right]; now eexists.
Qed.

End MainLoop.

(** ** Runs of the sample role *)

Section Runs.

Import Scenario.

Abbreviation think' llm := (think llm catalog resolver).

(** No marker stands in ["  hello world  "]. *)
Lemma hello_has_no_marker :
  forall t m, In (t, m) markers -> ~ occurs m "  hello world  ".
Proof.
  intros t m Hin. apply occursb_false.
  simpl in Hin.
  destruct Hin as [[= <- <-]|[[= <- <-]|[[= <- <-]|[[= <- <-]|[]]]]];
    reflexivity.
Defined.

Lemma extract_info_without_marker_witness :
  extract_info "  hello world  "
  = (MessageType.value MessageType.Talk, "hello world") /\
  _plan catalog resolver "  hello world  " "hi" (world_of fresh)
  = (Ok true, talk_todo "hello world" "hi" (world_of fresh)).
Proof.
  exact (extract_info_without_marker catalog resolver "  hello world  " "hi"
           (world_of fresh) hello_has_no_marker).
Defined.

Lemma plan_default_arm_witness :
  handlers catalog resolver !! "SOLUTION" = None /\
  handlers_get catalog resolver "SOLUTION" = talk_handler /\
  _plan catalog resolver "[SOLUTION]: x" "hi" (world_of fresh)
  = talk_handler "x" "hi" (world_of fresh) /\
  _plan catalog resolver "[SOLUTION]: x" "hi" (world_of fresh)
  = (Ok true, talk_todo "x" "hi" (world_of fresh)).
Proof.
  apply (plan_default_arm catalog resolver "[SOLUTION]: x" "hi" (world_of fresh)).
  left. reflexivity.
Defined.

Lemma skill_handler_fallback_witness :
  skill_handler catalog resolver "unknown_x" "what's apple" (world_of fresh)
  = (Ok true,
     talk_todo "what's apple" "what's apple"
       (add_log (log_info "skill not found: unknown_x") (world_of fresh))) /\
  skill_handler catalog resolver "text_to_image" "what's apple" (world_of fresh)
  = (Ok true, talk_todo "what's apple" "what's apple" (world_of fresh)) /\
  todo (_plan catalog resolver "[TALK]: what's apple" "what's apple"
          (world_of fresh)).2
  = todo (skill_handler catalog resolver "unknown_x" "what's apple"
            (world_of fresh)).2.
Proof.
  destruct (skill_handler_fallback catalog resolver "unknown_x" "what's apple"
              (world_of fresh)) as (_ & _ & Hmiss & _ & Hsame).
  destruct (skill_handler_fallback catalog resolver "text_to_image"
              "what's apple" (world_of fresh)) as (_ & _ & _ & Hargs & _).
  split; [apply Hmiss; reflexivity|].
  split; [apply (Hargs text_to_image); reflexivity|].
  apply Hsame; [left; reflexivity|reflexivity].
Defined.

Lemma think_without_last_talk_witness :
  refine_memory (oracle "[TALK]: x" true) (world_of answered)
  = (Ok None, world_of answered) /\
  think' (oracle "[TALK]: x" true) (world_of answered)
  = (Ok false, world_of answered).
Proof.
  apply (think_without_last_talk (oracle "[TALK]: x" true) catalog resolver
           (world_of answered)).
  reflexivity.
Defined.

Lemma refine_memory_empty_history_witness :
  refine_memory (oracle "[TALK]: x" true) (world_of fresh)
  = (Ok (Some "what's apple"), world_of fresh).
Proof.
  exact (refine_memory_empty_history (oracle "[TALK]: x" true) (world_of fresh)
           eq_refl).
Defined.

Lemma refine_memory_with_history_witness :
  refine_memory (oracle "[TALK]: x" true) (world_of ongoing)
  = (Ok (Some "what are pears, like apples?"),
     add_call (rewrite_call "and pears?" "what's applea fruit")
       (add_call (is_related_call "and pears?" "fruit")
          (add_call (get_context_title_call "what's applea fruit" 20)
             (world_of ongoing)))) /\
  refine_memory (oracle "[TALK]: x" false) (world_of ongoing)
  = (Ok (Some "and pears?"),
     set_memory (ConversationMemory.move_to_solution ongoing)
       (add_call (is_related_call "and pears?" "fruit")
          (add_call (get_context_title_call "what's applea fruit" 20)
             (world_of ongoing)))).
Proof.
  assert (Hlt : last_talk (memory (world_of ongoing)) = Some "and pears?")
    by reflexivity.
  assert (Hh : history_text (memory (world_of ongoing)) <> EmptyString)
    by discriminate.
  destruct (refine_memory_with_history (oracle "[TALK]: x" true)
              (world_of ongoing) "and pears?" "fruit"
              Hlt eq_refl Hh eq_refl) as [Hrelated _].
  destruct (refine_memory_with_history (oracle "[TALK]: x" false)
              (world_of ongoing) "and pears?" "fruit"
              Hlt eq_refl Hh eq_refl) as [_ Hunrelated].
  split.
  - exact (proj1 (Hrelated _ eq_refl eq_refl)).
  - exact (proj1 (Hunrelated eq_refl)).
Defined.


Lemma think_routes_every_response_witness :
  think' (oracle "[SOLUTION]: x" true) (world_of fresh)
  = (Ok true,
     talk_todo "x" "what's apple"
       (classified catalog "what's apple" "[SOLUTION]: x" (world_of fresh))).
Proof.
  assert (Hr : refine_memory (oracle "[SOLUTION]: x" true) (world_of fresh)
               = (Ok (Some "what's apple"), world_of fresh)) by reflexivity.
  destruct (think_routes_every_response (oracle "[SOLUTION]: x" true) catalog
              resolver (world_of fresh) (world_of fresh) "what's apple"
              "[SOLUTION]: x" Hr eq_refl eq_refl) as (_ & _ & _ & Hsolution).
  exact (Hsolution eq_refl).
Defined.

(** A role about to say "hello", and one about to run a skill. *)
Lemma act_result_witness :
  act executor
    (set_todo (Some (TalkAction "hello" EmptyString "hello")) (world_of fresh))
  = (Ok (Some {| output_content := "hello";
                 output_instruct_content := None |}),
     set_memory (add_answer (answer_of_str "hello") fresh)
       (set_todo (Some (TalkAction "hello" EmptyString "hello"))
          (world_of fresh))) /\
  act executor
    (set_todo (Some (SkillAction text_to_image [] "text_to_image" EmptyString))
       (world_of fresh))
  = (Ok None,
     set_todo (Some (SkillAction text_to_image [] "text_to_image" EmptyString))
       (world_of fresh)).
Proof.
  split.
  - destruct (act_result executor
                (set_todo (Some (TalkAction "hello" EmptyString "hello"))
                   (world_of fresh))
                (TalkAction "hello" EmptyString "hello")
                (Some (RStr "hello")) eq_refl eq_refl) as (_ & Htext & _).
    apply (Htext "hello"); [reflexivity|discriminate].
  - destruct (act_result executor
                (set_todo
                   (Some (SkillAction text_to_image [] "text_to_image"
                            EmptyString))
                   (world_of fresh))
                (SkillAction text_to_image [] "text_to_image" EmptyString)
                None eq_refl eq_refl) as (Hnone & _ & _).
    apply Hnone. left. reflexivity.
Defined.


(** The first scenario of section 8: the reply is produced, memory gains
    the talk and the answer, and the next cycle has nothing to do. *)
Example first_turn :
  let run := turn (oracle "[TALK]: apple info" true) "what's apple"
               (world_of ConversationMemory.empty) in
  run.1
  = Ok (true,
        Some {| output_content := "apple info";
                output_instruct_content := None |},
        false) /\
  memory run.2
  = ConversationMemory.add_answer (answer_of_str "apple info") fresh /\
  length (calls run.2) = 1%nat.
Proof. repeat (split; [reflexivity|]). reflexivity. Qed.

(** A sentence the resolver understands ends in a skill action. *)
Example draw_a_cat :
  let w := world_of (ConversationMemory.add_talk (say "draw a cat")
                       ConversationMemory.empty) in
  (think' (oracle "[SKILL]: text_to_image" true) w).1 = Ok true /\
  todo (think' (oracle "[SKILL]: text_to_image" true) w).2
  = Some (SkillAction text_to_image [("text", "a cat")] "text_to_image"
            "Create a drawing based on the text.").
Proof. split; reflexivity. Qed.

(** *** Where the code departs from a sentence of the specification *)

(** C1 as stated fails: the oracle answers a fresh conversation with
    [[SOLUTION]: x]; refinement returns the sentence without a look at that
    response, which is parsed as Solution, reaches [_plan] and is given to
    the talk handler. *)
Lemma solution_response_reaches_plan :
  extract_info "[SOLUTION]: x"
  = (MessageType.value MessageType.Solution, "x") /\
  refine_memory (oracle "[SOLUTION]: x" true) (world_of fresh)
  = (Ok (Some "what's apple"), world_of fresh) /\
  think' (oracle "[SOLUTION]: x" true) (world_of fresh)
  = _plan catalog resolver "[SOLUTION]: x" "what's apple"
      (classified catalog "what's apple" "[SOLUTION]: x" (world_of fresh)) /\
  _plan catalog resolver "[SOLUTION]: x" "what's apple"
    (classified catalog "what's apple" "[SOLUTION]: x" (world_of fresh))
  = talk_handler "x" "what's apple"
      (classified catalog "what's apple" "[SOLUTION]: x" (world_of fresh)) /\
  todo (think' (oracle "[SOLUTION]: x" true) (world_of fresh)).2
  = Some (TalkAction "x" EmptyString "what's apple").
Proof. repeat (split; [reflexivity|]). reflexivity. Qed.


(** C8 as stated fails: the pending action returns a text, the empty one;
    [act] returns [None] and adds no answer to memory. *)
Lemma act_empty_text :
  executor (TalkAction EmptyString EmptyString "hi")
  = Ok (Some (RStr EmptyString)) /\
  act executor
    (set_todo (Some (TalkAction EmptyString EmptyString "hi")) (world_of fresh))
  = (Ok None,
     set_todo (Some (TalkAction EmptyString EmptyString "hi")) (world_of fresh)).
Proof. split; reflexivity. Qed.

End Runs.

(** ** Runs of the prompt, the constructor and the loop *)

Section MoreRuns.

Import Scenario Setup.

Abbreviation Wd := (World ConversationMemory.t ConversationMemory.Json).
Abbreviation init' :=
  (Assistant_init ConversationMemory.empty json_bool posix_path loader).
Abbreviation loop' llm run := (main_loop llm catalog resolver run render).

Lemma build_prompt_offers_witness :
  occurs "what's apple" (build_prompt catalog "what's apple") /\
  occurs
    "If want you to do Create a drawing based on the text., return `[SKILL]: text_to_image` brief and clear."
    (build_prompt catalog "what's apple").
Proof.
  destruct (build_prompt_offers catalog "what's apple") as [Hsentence Hline].
  split; [exact Hsentence|].
  apply (Hline "Create a drawing based on the text." "text_to_image").
  left. reflexivity.
Defined.

Lemma think_true_pending_witness :
  exists a pre lt,
    todo (think (oracle "[TALK]: x" true) catalog resolver
            (world_of ongoing)).2 = Some a /\
    truthy lt = true /\
    calls (think (oracle "[TALK]: x" true) catalog resolver
             (world_of ongoing)).2
    = calls (world_of ongoing) ++ pre
      ++ [aask_call (build_prompt catalog lt) []] /\
    forallb refinement_call pre = true /\ (length pre <= 3)%nat.
Proof.
  apply (think_true_pending (oracle "[TALK]: x" true) catalog resolver
           (world_of ongoing)).
  reflexivity.
Defined.

Lemma think_false_idle_witness :
  (refine_memory (oracle "[TALK]: x" true) (world_of answered)
   = (Ok None, world_of answered) /\
   last_talk (memory (world_of answered)) = None \/
   refine_memory (oracle "[TALK]: x" true) (world_of answered)
   = (Ok (Some EmptyString), world_of answered)) /\
  todo (world_of answered) = todo (world_of answered) /\
  logs (world_of answered) = logs (world_of answered) /\
  classifications (calls (world_of answered))
  = classifications (calls (world_of answered)).
Proof.
  apply (think_false_idle (oracle "[TALK]: x" true) catalog resolver
           (world_of answered) (world_of answered)).
  reflexivity.
Defined.

Lemma think_empty_last_talk_witness :
  think (oracle "[TALK]: x" true) catalog resolver (world_of silent)
  = (Ok false,
     set_memory (ConversationMemory.move_to_solution silent)
       (add_call (get_context_title_call "what's applea fruit" 20)
          (world_of silent))).
Proof.
  assert (Hlt : last_talk (memory (world_of silent)) = Some EmptyString)
    by reflexivity.
  assert (Hh : history_text (memory (world_of silent)) <> EmptyString)
    by discriminate.
  assert (Hsum : get_context_title (oracle "[TALK]: x" true)
                   (history_text (memory (world_of silent))) 20 = Some "fruit")
    by reflexivity.
  exact (proj1 (proj2 (think_empty_last_talk (oracle "[TALK]: x" true) catalog
                         resolver (world_of silent) "fruit" Hlt Hh Hsum))).
Defined.

Lemma think_empty_rewrite_witness :
  think oracle_mute catalog resolver (world_of ongoing)
  = (Ok false,
     add_call (rewrite_call "and pears?" "what's applea fruit")
       (add_call (is_related_call "and pears?" "fruit")
          (add_call (get_context_title_call "what's applea fruit" 20)
             (world_of ongoing)))).
Proof.
  assert (Hlt : last_talk (memory (world_of ongoing)) = Some "and pears?")
    by reflexivity.
  assert (Hh : history_text (memory (world_of ongoing)) <> EmptyString)
    by discriminate.
  assert (Hsum : get_context_title oracle_mute
                   (history_text (memory (world_of ongoing))) 20 = Some "fruit")
    by reflexivity.
  exact (think_empty_rewrite oracle_mute catalog resolver (world_of ongoing)
           "and pears?" "fruit" Hlt eq_refl Hh Hsum eq_refl eq_refl).
Defined.

Lemma think_memory_choice_witness :
  (memory (think (oracle "[TALK]: x" false) catalog resolver
             (world_of ongoing)).2 = memory (world_of ongoing) \/
   memory (think (oracle "[TALK]: x" false) catalog resolver
             (world_of ongoing)).2
   = move_to_solution (memory (world_of ongoing))) /\
  (last_talk (memory (world_of ongoing)) = None \/
   history_text (memory (world_of ongoing)) = EmptyString ->
   memory (think (oracle "[TALK]: x" false) catalog resolver
             (world_of ongoing)).2 = memory (world_of ongoing)).
Proof.
  apply (think_memory_choice (oracle "[TALK]: x" false) catalog resolver
           (world_of ongoing)
           (think (oracle "[TALK]: x" false) catalog resolver
              (world_of ongoing)).1).
  reflexivity.
Defined.

Lemma plan_skill_action_witness :
  (_plan catalog resolver "[SKILL]: text_to_image" "draw a cat"
     (world_of fresh)).1 = Ok true /\
  get_skill catalog "text_to_image" = Some text_to_image /\
  resolver text_to_image "draw a cat" = Some [("text", "a cat")].
Proof.
  destruct (plan_skill_action catalog resolver "[SKILL]: text_to_image"
              "draw a cat" (world_of fresh)) as (_ & _ & Hskill).
  destruct (Hskill text_to_image [("text", "a cat")] "text_to_image"
              "Create a drawing based on the text." eq_refl)
    as (_ & Hget & Hargs & _).
  split; [reflexivity|]. split; [exact Hget|exact Hargs].
Defined.

Lemma act_failure_witness :
  memory (world_of fresh) = memory (world_of fresh) /\
  todo (world_of fresh) = todo (world_of fresh) /\
  (todo (world_of fresh) = None /\
   AttributeError "run" = AttributeError "run" \/
   exists action, todo (world_of fresh) = Some action /\
     executor action = Raise (AttributeError "run")).
Proof.
  apply (act_failure executor (world_of fresh) (AttributeError "run")
           (world_of fresh)).
  reflexivity.
Defined.

Lemma act_success_witness :
  todo (act executor
          (set_todo (Some (TalkAction "hello" EmptyString "hello"))
             (world_of fresh))).2
  = Some (TalkAction "hello" EmptyString "hello") /\
  exists msg,
    memory (act executor
              (set_todo (Some (TalkAction "hello" EmptyString "hello"))
                 (world_of fresh))).2
    = add_answer msg fresh /\
    content msg = "hello" /\ instruct_content msg = None.
Proof.
  apply (act_success executor
           (set_todo (Some (TalkAction "hello" EmptyString "hello"))
              (world_of fresh))
           (Some {| output_content := "hello";
                    output_instruct_content := None |})).
  reflexivity.
Defined.

Lemma act_twice_witness :
  exists msg,
    memory (act executor
              (set_todo (Some (TalkAction "hello" EmptyString "hello"))
                 (world_of fresh))).2
    = add_answer msg fresh /\
    (act executor
       (act executor
          (set_todo (Some (TalkAction "hello" EmptyString "hello"))
             (world_of fresh))).2).1
    = Ok (Some {| output_content := "hello";
                  output_instruct_content := None |}) /\
    memory (act executor
              (act executor
                 (set_todo (Some (TalkAction "hello" EmptyString "hello"))
                    (world_of fresh))).2).2
    = add_answer msg (add_answer msg fresh).
Proof.
  apply (act_twice executor
           (set_todo (Some (TalkAction "hello" EmptyString "hello"))
              (world_of fresh))).
  reflexivity.
Defined.



Lemma Assistant_init_skills_witness :
  loader (Some (posix_path "./conf//skills.yaml")) = Ok catalog /\
  posix_path "./conf//skills.yaml" = "conf/skills.yaml" /\
  loader None = Ok catalog.
Proof.
  assert (Hpath : init' {| BRAIN_MEMORY := None;
                           SKILL_PATH := Some "./conf//skills.yaml" |}
                  = Ok (ConversationMemory.empty, catalog)) by reflexivity.
  assert (Hnone : init' {| BRAIN_MEMORY := None;
                           SKILL_PATH := Some EmptyString |}
                  = Ok (ConversationMemory.empty, catalog)) by reflexivity.
  destruct (Assistant_init_skills ConversationMemory.empty json_bool
              posix_path loader
              {| BRAIN_MEMORY := None;
                 SKILL_PATH := Some "./conf//skills.yaml" |}
              (ConversationMemory.empty, catalog) Hpath) as (Hsome & _).
  destruct (Assistant_init_skills ConversationMemory.empty json_bool
              posix_path loader
              {| BRAIN_MEMORY := None; SKILL_PATH := Some EmptyString |}
              (ConversationMemory.empty, catalog) Hnone) as (_ & Hempty).
  split; [apply (Hsome "./conf//skills.yaml"); reflexivity|].
  split; [reflexivity|]. apply Hempty. now right.
Defined.

(** The user asks for a drawing and the action fails. *)
Lemma main_loop_failure_witness :
  RoleError (ActionError "no drawing today") = EOFError \/
  (exists c, RoleError (ActionError "no drawing today")
             = RoleError (OracleError c)) \/
  (exists action e',
     RoleError (ActionError "no drawing today") = RoleError e' /\
     executor_down action = Raise e').
Proof.
  apply (main_loop_failure (oracle "[SKILL]: text_to_image" true) catalog
           resolver executor_down render ["thanks"]
           (world_of (ConversationMemory.add_talk (say "draw a cat")
                        ConversationMemory.empty))
           (RoleError (ActionError "no drawing today"))
           (loop' (oracle "[SKILL]: text_to_image" true) executor_down
              ["thanks"]
              (world_of (ConversationMemory.add_talk (say "draw a cat")
                           ConversationMemory.empty))).2).
  reflexivity.
Defined.

Lemma main_loop_empty_talk_witness :
  (exists w1 : Wd,
     loop' (oracle "[TALK]: x" true) executor ["more"] (world_of silent)
     = (Done tt, w1) /\ todo w1 = todo (world_of silent)) \/
  (exists w1 : Wd,
     loop' (oracle "[TALK]: x" true) executor ["more"] (world_of silent)
     = (Failed (RoleError
                  (OracleError
                     (get_context_title_call
                        (history_text (memory (world_of silent))) 20))), w1)).
Proof.
  apply (main_loop_empty_talk (oracle "[TALK]: x" true) catalog resolver
           executor render ["more"] (world_of silent)).
  reflexivity.
Defined.

Lemma think_unrelated_talk_witness :
  (think (oracle "[PROBLEM]: pears" false) catalog resolver
     (world_of ongoing)).1 = Ok true /\
  todo (think (oracle "[PROBLEM]: pears" false) catalog resolver
          (world_of ongoing)).2
  = Some (TalkAction "pears" EmptyString "and pears?") /\
  memory (think (oracle "[PROBLEM]: pears" false) catalog resolver
            (world_of ongoing)).2
  = ConversationMemory.move_to_solution ongoing.
Proof.
  assert (Hlt : last_talk (memory (world_of ongoing)) = Some "and pears?")
    by reflexivity.
  assert (Hh : history_text (memory (world_of ongoing)) <> EmptyString)
    by discriminate.
  assert (Hsum : get_context_title (oracle "[PROBLEM]: pears" false)
                   (history_text (memory (world_of ongoing))) 20 = Some "fruit")
    by reflexivity.
  assert (Htag : (extract_info "[PROBLEM]: pears").1
                 <> MessageType.value MessageType.Skill) by discriminate.
  exact (think_unrelated_talk (oracle "[PROBLEM]: pears" false) catalog
           resolver (world_of ongoing) "and pears?" "fruit" "[PROBLEM]: pears"
           Hlt eq_refl Hh Hsum eq_refl eq_refl Htag).
Defined.

Lemma think_related_skill_witness :
  todo (think (oracle "[SKILL]: unknown_x" true) catalog resolver
          (world_of ongoing)).2
  = Some (TalkAction "what are pears, like apples?" "what's applea fruit"
            "what are pears, like apples?").
Proof.
  assert (Hlt : last_talk (memory (world_of ongoing)) = Some "and pears?")
    by reflexivity.
  assert (Hh : history_text (memory (world_of ongoing)) <> EmptyString)
    by discriminate.
  assert (Hsum : get_context_title (oracle "[SKILL]: unknown_x" true)
                   (history_text (memory (world_of ongoing))) 20 = Some "fruit")
    by reflexivity.
  assert (Hrw : rewrite (oracle "[SKILL]: unknown_x" true) "and pears?"
                  (history_text (memory (world_of ongoing)))
                = Some "what are pears, like apples?") by reflexivity.
  destruct (think_related_skill (oracle "[SKILL]: unknown_x" true) catalog
              resolver (world_of ongoing) "and pears?" "fruit"
              "what are pears, like apples?" "[SKILL]: unknown_x"
              Hlt eq_refl Hh Hsum eq_refl Hrw eq_refl eq_refl eq_refl)
    as (_ & _ & Hmiss & _).
  apply Hmiss. left. reflexivity.
Defined.

(** An unknown skill in a conversation that has just begun, and in one
    that goes on. *)
Lemma think_skill_fallback_witness :
  todo (think (oracle "[SKILL]: unknown_x" true) catalog resolver
          (world_of fresh)).2
  = Some (TalkAction "what's apple" EmptyString "what's apple") /\
  todo (think (oracle "[SKILL]: unknown_x" true) catalog resolver
          (world_of ongoing)).2
  = Some (TalkAction "what are pears, like apples?" "what's applea fruit"
            "what are pears, like apples?").
Proof.
  assert (Hfresh : refine_memory (oracle "[SKILL]: unknown_x" true)
                     (world_of fresh)
                   = (Ok (Some "what's apple"), world_of fresh))
    by reflexivity.
  assert (Hongoing : refine_memory (oracle "[SKILL]: unknown_x" true)
                       (world_of ongoing)
                     = (Ok (Some "what are pears, like apples?"),
                        (refine_memory (oracle "[SKILL]: unknown_x" true)
                           (world_of ongoing)).2))
    by reflexivity.
  split.
  - exact (proj1 (proj2
             (think_skill_fallback (oracle "[SKILL]: unknown_x" true) catalog
                resolver (world_of fresh) (world_of fresh) "what's apple"
                "[SKILL]: unknown_x" Hfresh eq_refl eq_refl eq_refl
                (or_introl eq_refl)))).
  - exact (proj1 (proj2
             (think_skill_fallback (oracle "[SKILL]: unknown_x" true) catalog
                resolver (world_of ongoing) _ "what are pears, like apples?"
                "[SKILL]: unknown_x" Hongoing eq_refl eq_refl eq_refl
                (or_introl eq_refl)))).
Defined.

(** C5 as stated fails: the last talk of memory is "and pears?", the oracle
    finds it related and rewrites it, and classifies the rewrite as a skill
    the catalog does not have.  The fallback talks about the rewrite, not
    about the last talk as memory has it, and the pending action is not the
    one of that last talk classified as Talk. *)
Lemma skill_fallback_on_rewrite :
  last_talk (memory (world_of ongoing)) = Some "and pears?" /\
  extract_info "[SKILL]: unknown_x"
  = (MessageType.value MessageType.Skill, "unknown_x") /\
  get_skill catalog "unknown_x" = None /\
  todo (think (oracle "[SKILL]: unknown_x" true) catalog resolver
          (world_of ongoing)).2
  = Some (TalkAction "what are pears, like apples?" "what's applea fruit"
            "what are pears, like apples?") /\
  todo (think (oracle "[SKILL]: unknown_x" true) catalog resolver
          (world_of ongoing)).2
  <> todo (_plan catalog resolver "[TALK]: and pears?" "and pears?"
             (world_of ongoing)).2.
Proof.
  repeat (split; [reflexivity|]). discriminate.
Qed.

(** A talk, an answer, one more line, its answer, and the standard input
    is at its end. *)
Example main_end_of_input :
  (main (oracle "[TALK]: apple info" false) catalog resolver executor render
     ["and pears?"] (world_of ConversationMemory.empty)).1 = Failed EOFError.
Proof. reflexivity. Qed.

(** The path object of some texts. *)
Example posix_path_samples :
  posix_path "./conf//skills.yaml" = "conf/skills.yaml" /\
  posix_path "/etc/skills/" = "/etc/skills" /\
  posix_path "skills.yaml" = "skills.yaml" /\
  posix_path "." = ".".
Proof. repeat (split; [reflexivity|]). reflexivity. Qed.

End MoreRuns.
